(** * steam_scanner: a shallow embedding of [SteamGameScanner]

    The development follows [steam_scanner.py] top to bottom:

    - [Py]: the Python values and builtins the scanner relies on
      (arbitrary-precision integers, binary64 floats produced by [/],
      [str], [format(x, '.1f')], the stable [list.sort]);
    - [Scanner]: the class itself.  The two fetch methods and
      [generate_markdown_report] run in a small state monad over the
      trace of observable events (console lines, sleeps, HTTP requests,
      file writes); the report text is a pure function of the fetched
      values;
    - [main], at the console;
    - the two fetch methods once more, over decoded bodies in which a
      member may be null, where they raise.

    Theorems come after the definitions. *)

From Stdlib Require Import ZArith List String Ascii Bool Lia.
From Stdlib Require Import Permutation Sorted DecimalString.
From Stdlib Require Import Floats.SpecFloat.
Import ListNotations.

Local Open Scope string_scope.
Local Open Scope list_scope.
Local Open Scope Z_scope.

(** String concatenation, written apart from list append. *)
Infix "+++" := String.append (right associativity, at level 60).

(* ================================================================= *)
(** * Python values and builtins *)

Module Py.

(** ** Numbers *)

(** A Python [float] is a binary64 number.  Only finite values arise in
    the scanner; one is kept as the pair of an integer mantissa and a
    binary exponent, standing for [mant * 2 ^ expo].  The pair is not
    normalised: every operation below goes through the exact value. *)
Record float : Type := mkFloat { mant : Z; expo : Z }.

(** The exact value of a float as a fraction [fnum / fden], [fden] a
    positive power of two. *)
Definition fnum (x : float) : Z := mant x * 2 ^ Z.max 0 (expo x).
Definition fden (x : float) : Z := 2 ^ Z.max 0 (- expo x).

(** A number handled by the scanner: [int] (playtimes, sums, lengths)
    or [float] (results of [/]). *)
Inductive number : Type :=
| PyInt (n : Z)
| PyFloat (x : float).

Definition num (v : number) : Z :=
  match v with PyInt n => n | PyFloat x => fnum x end.

Definition den (v : number) : Z :=
  match v with PyInt _ => 1 | PyFloat x => fden x end.

(** [v == n], [v < n] for an integer [n]: Python compares an int with a
    float by exact value. *)
Definition eq_int (v : number) (n : Z) : bool := num v =? n * den v.
Definition lt_int (v : number) (n : Z) : bool := num v <? n * den v.

(** Rounding of the non-negative fraction [n / d] to an integer, ties
    to even. *)
Definition round_half_even (n d : Z) : Z :=
  let q := n / d in
  let r := n mod d in
  if 2 * r <? d then q
  else if d <? 2 * r then q + 1
  else if Z.even q then q else q + 1.

(** [floor (log2 (n / d))] for positive [n] and [d]. *)
Definition log2_quot (n d : Z) : Z :=
  let k := Z.log2 n - Z.log2 d in
  if d * 2 ^ Z.max 0 k <=? n * 2 ^ Z.max 0 (- k) then k else k - 1.

(** The binary64 number nearest to [a / b] ([b] positive), ties to
    even: the quotient is scaled by [2 ^ s] so that it falls in
    [[2^52, 2^53)], rounded to an integer there, and scaled back.  This
    is what [/] returns on two ints (CPython rounds the exact integer
    quotient) and on a float and an int that converts exactly.  The
    exponent range of binary64 is not modelled: a quotient above
    [2^1024] raises [OverflowError] in Python and is a value here. *)
Definition round_div (a b : Z) : float :=
  if a =? 0 then mkFloat 0 0
  else
    let n := Z.abs a in
    let s := 52 - log2_quot n b in
    let q := round_half_even (n * 2 ^ Z.max 0 s) (b * 2 ^ Z.max 0 (- s)) in
    mkFloat (Z.sgn a * q) (- s).

(** The same quotient through the Standard Library's specification of
    IEEE 754 binary64: both ints converted, then divided.  It is exact
    about Python as long as both ints are below [2^53] in size, and
    serves as a check on [round_div] there. *)
Definition ieee_of_int (n : Z) : spec_float := binary_normalize 53 1024 n 0 false.

Definition ieee_div (a b : Z) : spec_float :=
  SFdiv 53 1024 (ieee_of_int a) (ieee_of_int b).

Definition same_value (x : float) (y : spec_float) : bool :=
  match y with
  | S754_zero _ => fnum x =? 0
  | S754_finite s m e =>
      let y' := mkFloat (if s then Z.neg m else Z.pos m) e in
      fnum x * fden y' =? fnum y' * fden x
  | S754_infinity _ | S754_nan => false
  end.

(** [v / d] for a positive int [d]. *)
Definition truediv (v : number) (d : Z) : float :=
  round_div (num v) (den v * d).

(** [int(x)]: truncation towards zero. *)
Definition int_of_float (x : float) : Z := Z.quot (fnum x) (fden x).

(** ** Text *)

(** [str(n)] for an int. *)
Definition str_int (n : Z) : string := NilZero.string_of_int (Z.to_int n).

(** [format(x, '.1f')]: the exact value rounded to one decimal, ties to
    even, the sign kept also when the digits round to zero. *)
Definition format_1f (x : float) : string :=
  let t := round_half_even (10 * Z.abs (fnum x)) (fden x) in
  (if fnum x <? 0 then "-" else "")
    +++ str_int (t / 10) +++ "." +++ str_int (t mod 10).

(** ['\n'.join(lines)]. *)
Definition join_lines (lines : list string) : string :=
  String.concat (String (ascii_of_nat 10) EmptyString) lines.

(** ** [list.sort(key=..., reverse=True)] *)

(** Python's sort is stable, also under [reverse=True]: records with
    equal keys keep their original order.  A stable sort has one
    possible result ([sort_reverse_unique] below), so insertion from
    the right stands for it: [x], which comes before everything in [l],
    goes in front of the first element whose key does not exceed its
    own. *)
Section Sort.
Context {A : Type} (key : A -> Z).

Fixpoint insert_desc (x : A) (l : list A) : list A :=
  match l with
  | [] => [x]
  | y :: l' => if key x <? key y then y :: insert_desc x l' else x :: l
  end.

Definition sort_reverse (l : list A) : list A :=
  fold_right insert_desc [] l.

(** Non-increasing in [key]: every element is at least as large as all
    those after it. *)
Definition descending (l : list A) : Prop :=
  StronglySorted (fun a b => key b <= key a) l.
End Sort.

(** [enumerate(l, start)] *)
Fixpoint enumerate {A : Type} (l : list A) (start : Z) : list (Z * A) :=
  match l with
  | [] => []
  | x :: l' => (start, x) :: enumerate l' (start + 1)
  end.

(** ** [dict] with string keys and values *)

Definition dict : Type := list (string * string).

(** [d.get(k, default)] *)
Fixpoint dict_get (d : dict) (k default : string) : string :=
  match d with
  | [] => default
  | (k', v) :: d' => if String.eqb k k' then v else dict_get d' k default
  end.

(** Truth value of a dict: false exactly for the empty one. *)
Definition dict_truthy (d : dict) : bool :=
  match d with [] => false | _ :: _ => true end.

End Py.

Import Py.

(* ================================================================= *)
(** * The data returned by the Steam Web API *)

(** One entry of [data['response']['games']].  Every key may be
    missing; the scanner reads each of them with [dict.get]. *)
Record game : Type := mkGame {
  appid : option Z;
  name : option string;
  playtime_forever : option Z
}.

(** One entry of [data['response']['players']]: a JSON object. *)
Definition player : Type := dict.

(** The decoded JSON body, as far as the scanner looks into it, when
    it has the shape the API documents: the ['response'] object, if
    any, and its ['games'] and ['players'] lists, if any.  The bodies
    in which one of these members is null, on which the fetch methods
    raise, come with [raw_json] in the last part. *)
Record response_object : Type := mkResponse {
  games_field : option (list game);
  players_field : option (list player)
}.

Record json : Type := mkJson { response_field : option response_object }.

(** What one [requests.get] ... [response.json()] sequence comes to. *)
Inductive http_result : Type :=
| Status429
    (* response.status_code == 429 *)
| RequestException (e : string)
    (* requests.get, raise_for_status or response.json raised *)
| Ok (data : json).

(** Observable events of a run, oldest first. *)
Inductive event : Type :=
| Printed (line : string)
| Slept (seconds : Z)
| Requested (url : string) (params : dict)
| Wrote (path text : string).

Definition is_request (e : event) : bool :=
  match e with Requested _ _ => true | _ => false end.

Definition is_write (e : event) : bool :=
  match e with Wrote _ _ => true | _ => false end.

(** Number of HTTP requests issued in a trace. *)
Definition requests_made (t : list event) : nat :=
  List.length (filter is_request t).

(** ** The monad of the effectful methods: state over the trace *)

Definition M (A : Type) : Type := list event -> A * list event.

Definition ret {A} (a : A) : M A := fun t => (a, t).

Definition bind {A B} (c : M A) (k : A -> M B) : M B :=
  fun t => let (a, t') := c t in k a t'.

Notation "x <- c ;; k" := (bind c (fun x => k))
  (at level 61, c at next level, right associativity).
Notation "c ;; k" := (bind c (fun _ => k))
  (at level 61, right associativity).

Definition emit (e : event) : M unit := fun t => (tt, t ++ [e]).

Definition print (line : string) : M unit := emit (Printed line).

Definition time_sleep (seconds : Z) : M unit := emit (Slept seconds).

(* ================================================================= *)
(** * class SteamGameScanner *)

Section Scanner.

(** A lemma depends on the part of the world its statement names. *)
Set Default Proof Using "Type".

(** The world around a run: the outcome of the n-th HTTP request
    issued (counted from 0 over the whole run), the formatted
    [datetime.now()], the exception, if any, raised when the report
    file is opened or written, and Python's [str] on floats (the
    shortest decimal that reads back as the same float), which no
    property below looks into. *)
Variable network : nat -> http_result.
Variable now : string.
Variable write_error : string -> option string.
Variable float_str : float -> string.

(** [__init__] *)
Variable api_key : string.
Variable steam_id : string.
Definition base_url : string := "http://api.steampowered.com".

Definition requests_get (url : string) (params : dict) : M http_result :=
  fun t => (network (requests_made t), t ++ [Requested url params]).

(** [f"{minutes}"] *)
Definition str (v : number) : string :=
  match v with PyInt n => str_int n | PyFloat x => float_str x end.

(** ** get_owned_games *)

(** The body of [for attempt in range(3)], over the attempts still to
    be made.  [None] is Python's [None], returned when the loop runs
    out and control falls off the end of the method. *)
Fixpoint get_owned_games_from (attempts : list Z) : M (option (list game)) :=
  let url := base_url +++ "/IPlayerService/GetOwnedGames/v0001/" in
  let params := [("key", api_key); ("steamid", steam_id); ("format", "json");
                 ("include_appinfo", "True");
                 ("include_played_free_games", "True")] in
  match attempts with
  | [] => ret None
  | attempt :: rest =>
      print ("正在獲取遊戲列表... (嘗試 " +++ str_int (attempt + 1) +++ "/3)") ;;
      response <- requests_get url params ;;
      match response with
      | Status429 =>
          let wait_time := 60 * (attempt + 1) in
          print ("API請求過於頻繁，等待 " +++ str_int wait_time +++ " 秒後重試...") ;;
          time_sleep wait_time ;;
          get_owned_games_from rest
      | Ok data =>
          match response_field data with
          | Some (mkResponse (Some games) _) =>
              print ("✅ 成功獲取 " +++ str_int (Z.of_nat (List.length games))
                       +++ " 個遊戲") ;;
              ret (Some games)
          | _ =>
              print "無法獲取遊戲資料，請檢查API key和Steam ID是否正確" ;;
              ret (Some [])
          end
      | RequestException e =>
          print ("API請求失敗 (嘗試 " +++ str_int (attempt + 1) +++ "/3): " +++ e) ;;
          if attempt <? 2 then
            let wait_time := 30 * (attempt + 1) in
            print ("等待 " +++ str_int wait_time +++ " 秒後重試...") ;;
            time_sleep wait_time ;;
            get_owned_games_from rest
          else
            print "所有重試都失敗了" ;;
            ret (Some [])
      end
  end.

Definition get_owned_games : M (option (list game)) :=
  get_owned_games_from [0; 1; 2].

(** ** get_player_summary *)

Fixpoint get_player_summary_from (attempts : list Z) : M (option player) :=
  let url := base_url +++ "/ISteamUser/GetPlayerSummaries/v0002/" in
  let params := [("key", api_key); ("steamids", steam_id)] in
  match attempts with
  | [] => ret None
  | attempt :: rest =>
      print ("正在獲取玩家資訊... (嘗試 " +++ str_int (attempt + 1) +++ "/3)") ;;
      (if 0 <? attempt then time_sleep 2 else ret tt) ;;
      response <- requests_get url params ;;
      match response with
      | Status429 =>
          let wait_time := 60 * (attempt + 1) in
          print ("API請求過於頻繁，等待 " +++ str_int wait_time +++ " 秒後重試...") ;;
          time_sleep wait_time ;;
          get_player_summary_from rest
      | Ok data =>
          match response_field data with
          | Some (mkResponse _ (Some (p :: _))) =>
              print "✅ 成功獲取玩家資訊" ;;
              ret (Some p)
          | _ =>
              print "⚠️ 無法獲取玩家資訊，但會繼續處理遊戲列表" ;;
              ret None
          end
      | RequestException e =>
          print ("獲取玩家資訊失敗 (嘗試 " +++ str_int (attempt + 1) +++ "/3): " +++ e) ;;
          if attempt <? 2 then
            let wait_time := 30 * (attempt + 1) in
            print ("等待 " +++ str_int wait_time +++ " 秒後重試...") ;;
            time_sleep wait_time ;;
            get_player_summary_from rest
          else
            print "⚠️ 無法獲取玩家資訊，但會繼續處理遊戲列表" ;;
            ret None
      end
  end.

Definition get_player_summary : M (option player) :=
  get_player_summary_from [0; 1; 2].

(** ** minutes_to_hours *)

Definition minutes_to_hours (minutes : number) : string :=
  if eq_int minutes 0 then "0 小時"
  else
    let hours := truediv minutes 60 in
    if lt_int (PyFloat hours) 1 then str minutes +++ " 分鐘"
    else if eq_int (PyFloat hours) (int_of_float hours)
         then str_int (int_of_float hours) +++ " 小時"
         else format_1f hours +++ " 小時".

(** ** generate_markdown_report *)

(** [game.get('playtime_forever', 0)], [game.get('name', 'Unknown
    Game')] and [game.get('appid', 'N/A')] as it is printed. *)
Definition playtime (g : game) : Z :=
  match playtime_forever g with Some minutes => minutes | None => 0 end.

Definition game_name (g : game) : string :=
  match name g with Some s => s | None => "Unknown Game" end.

Definition app_id (g : game) : string :=
  match appid g with Some n => str_int n | None => "N/A" end.

(** [len(...)] as a Python int. *)
Definition len {A} (l : list A) : Z := Z.of_nat (List.length l).

(** [sum(game.get('playtime_forever', 0) for game in games)] *)
Definition total_minutes (games : list game) : Z :=
  fold_left (fun acc g => acc + playtime g) games 0.

Definition played_games (games : list game) : list game :=
  filter (fun g => 0 <? playtime g) games.

Definition unplayed_games (games : list game) : list game :=
  filter (fun g => playtime g =? 0) games.

Definition top_games (games : list game) : list game := firstn 10 games.

(** [total_minutes / len(played_games)] *)
Definition avg_playtime (games : list game) : float :=
  truediv (PyInt (total_minutes games)) (len (played_games games)).


(** The two lines appended under [if player_info:]. *)
Definition identity_lines (player_info : option player) : list string :=
  match player_info with
  | Some p =>
      if dict_truthy p then
        [ "**玩家名稱**: " +++ dict_get p "personaname" "Unknown";
          "**Steam ID**: " +++ steam_id ]
      else []
  | None => []
  end.

(** Title and basic information. *)
Definition header_lines (player_info : option player) (games : list game)
  : list string :=
  [ "# Steam 遊戲庫報告"; ""; "**生成時間**: " +++ now ]
  ++ identity_lines player_info
  ++ [ "**遊戲總數**: " +++ str_int (len games);
       "**總遊戲時間**: " +++ minutes_to_hours (PyInt (total_minutes games));
       "" ].

(** The line appended under [if played_games:]. *)
Definition average_lines (games : list game) : list string :=
  match played_games games with
  | [] => []
  | _ :: _ =>
      [ "- **平均遊戲時間**: "
          +++ minutes_to_hours (PyFloat (avg_playtime games)) ]
  end.

(** The statistics block. *)
Definition statistics_lines (games : list game) : list string :=
  [ "## 📊 統計資訊"; "";
    "- **已遊玩遊戲**: " +++ str_int (len (played_games games)) +++ " 款";
    "- **未遊玩遊戲**: " +++ str_int (len (unplayed_games games)) +++ " 款" ]
  ++ average_lines games
  ++ [ "" ].

(** [f"{i}. **{game_name}** - {playtime_str}"] *)
Definition ranking_line (i : Z) (g : game) : string :=
  str_int i +++ ". **" +++ game_name g +++ "** - "
    +++ minutes_to_hours (PyInt (playtime g)).

(** [for i, game in enumerate(top_games, 1): if playtime > 0: ...] *)
Definition ranking_entries (top_games : list game) : list string :=
  flat_map
    (fun '(i, g) => if 0 <? playtime g then [ranking_line i g] else [])
    (enumerate top_games 1).

(** The ranking section, top 10 by playtime. *)
Definition ranking_lines (games : list game) : list string :=
  match top_games games with
  | [] => []
  | g :: _ =>
      if 0 <? playtime g then
        [ "## 🏆 遊戲時間排行榜 (前10名)"; "" ]
        ++ ranking_entries (top_games games)
        ++ [ "" ]
      else []
  end.

Definition played_row (g : game) : string :=
  "| " +++ game_name g +++ " | " +++ minutes_to_hours (PyInt (playtime g))
    +++ " | " +++ app_id g +++ " |".

Definition unplayed_row (g : game) : string :=
  "| " +++ game_name g +++ " | " +++ app_id g +++ " |".

Definition played_table (games : list game) : list string :=
  match played_games games with
  | [] => []
  | _ :: _ =>
      [ "### 已遊玩遊戲"; ""; "| 遊戲名稱 | 遊戲時間 | App ID |";
        "|----------|----------|--------|" ]
      ++ map played_row (played_games games)
      ++ [ "" ]
  end.

Definition unplayed_table (games : list game) : list string :=
  match unplayed_games games with
  | [] => []
  | _ :: _ =>
      [ "### 未遊玩遊戲"; ""; "| 遊戲名稱 | App ID |"; "|----------|--------|" ]
      ++ map unplayed_row (unplayed_games games)
  end.

(** The list [markdown_content] as it stands before the file is
    written; [games] is the fetched list, sorted in place first. *)
Definition markdown_content (player_info : option player) (games : list game)
  : list string :=
  let games := sort_reverse playtime games in
  header_lines player_info games
  ++ statistics_lines games
  ++ ranking_lines games
  ++ [ "## 🎮 完整遊戲列表"; "" ]
  ++ played_table games
  ++ unplayed_table games.

(** The diagnostics printed when no game came back. *)
Definition diagnostics : list string :=
  [ "❌ 無法獲取遊戲資料，請檢查:"; "1. API Key是否正確"; "2. Steam ID是否正確";
    "3. Steam個人檔案是否設為公開"; "4. 網路連線是否正常" ].

Fixpoint print_all (lines : list string) : M unit :=
  match lines with
  | [] => ret tt
  | line :: rest => print line ;; print_all rest
  end.

(** Everything after the owned games have come back non-empty. *)
Definition write_report (output_file : string) (games : list game) : M unit :=
  print "⏳ 等待5秒後獲取玩家資訊..." ;;
  time_sleep 5 ;;
  player_info <- get_player_summary ;;
  let text := join_lines (markdown_content player_info games) in
  let games := sort_reverse playtime games in
  match write_error output_file with
  | None =>
      emit (Wrote output_file text) ;;
      print ("✅ 報告已生成: " +++ output_file) ;;
      print ("📊 總共掃描了 " +++ str_int (len games) +++ " 款遊戲") ;;
      print ("⏱️ 總遊戲時間: " +++ minutes_to_hours (PyInt (total_minutes games)))
  | Some e =>
      print ("❌ 寫入檔案時發生錯誤: " +++ e)
  end.

Definition generate_markdown_report (output_file : string) : M unit :=
  print "=== 開始掃描Steam遊戲庫 ===" ;;
  print "提示：如果遇到API限制，程式會自動等待並重試" ;;
  print "" ;;
  games <- get_owned_games ;;
  match games with
  | None | Some [] =>
      (* if not games: *)
      print_all diagnostics
  | Some games =>
      write_report output_file games
  end.

(** ** Sample data *)

(** The two games of the worked scenario. *)
Definition game_A : game := mkGame (Some 10) (Some "A") (Some 120).
Definition game_B : game := mkGame (Some 20) (Some "B") (Some 0).

(** A game record with its ['playtime_forever'] key written out: the
    value it has, 0 when the key is missing. *)
Definition with_playtime_key (g : game) : game :=
  mkGame (appid g) (name g) (Some (playtime g)).

(** A sample world for closed examples: a clock, a disk that takes
    every write, and a stand-in for [str] on floats. *)
Definition sample_now : string := "2024-01-01 12:00:00".
Definition sample_write_error : string -> option string := fun _ => None.
Definition sample_float_str : float -> string :=
  fun x => str_int (mant x) +++ "*2^" +++ str_int (expo x).

Definition sample_api_key : string := "0123456789ABCDEF0123456789ABCDEF".
Definition sample_steam_id : string := "76561197960287930".

(** A third game, fetched without a playtime. *)
Definition game_C : game := mkGame (Some 30) (Some "C") None.

(** Sample networks: an account that owns no game; a server that
    answers 429 to everything; a connection that always times out; a
    library of two games whose player object comes back empty. *)
Definition network_empty_library : nat -> http_result :=
  fun _ => Ok (mkJson (Some (mkResponse (Some []) None))).

Definition network_rate_limited : nat -> http_result := fun _ => Status429.

Definition network_down : nat -> http_result :=
  fun _ => RequestException "timed out".

Definition network_empty_player : nat -> http_result :=
  fun n =>
    match n with
    | O => Ok (mkJson (Some (mkResponse (Some [game_A; game_B]) None)))
    | _ => Ok (mkJson (Some (mkResponse None (Some [ [] ]))))
    end.

(** The three lines [generate_markdown_report] opens with. *)
Definition banner : list event :=
  [ Printed "=== 開始掃描Steam遊戲庫 ===";
    Printed "提示：如果遇到API限制，程式會自動等待並重試";
    Printed "" ].

(** An attempt that did not get a decoded body back. *)
Definition failed (r : http_result) : bool :=
  match r with Ok _ => false | Status429 | RequestException _ => true end.

(** The [n] requests from the one numbered [first] on all fail. *)
Definition all_failed (first n : nat) : Prop :=
  forall i, (i < n)%nat -> failed (network (first + i)) = true.

(** [t'] continues [t] with at most [n] more HTTP requests and without
    writing a file. *)
Definition continues (t t' : list event) (n : nat) : Prop :=
  exists u, t' = t ++ u /\ (requests_made u <= n)%nat /\ filter is_write u = [].

(** Seconds spent in [time.sleep] over a trace. *)
Definition slept (t : list event) : Z :=
  fold_right (fun e total => match e with Slept s => s + total | _ => total end)
             0 t.

(* =============================================================== *)
(** * Properties *)

(** ** The stable descending sort *)

Lemma In_firstn {A : Type} (n : nat) (l : list A) (x : A) :
  In x (firstn n l) -> In x l.
Proof.
  revert n. induction l as [|y l IH]; intros [|n]; simpl;
    try (intros H; exact H).
  - intros H. destruct H.
  - intros [->|H]; [now left|right; exact (IH n H)].
Qed.

Section SortFacts.
Context {A : Type} (key : A -> Z).

Lemma insert_desc_perm (x : A) (l : list A) :
  Permutation (insert_desc key x l) (x :: l).
Proof.
  induction l as [|y l IH]; simpl; [reflexivity|].
  destruct (key x <? key y); [|reflexivity].
  rewrite IH. apply perm_swap.
Qed.

Lemma sort_reverse_perm (l : list A) : Permutation (sort_reverse key l) l.
Proof.
  induction l as [|x l IH]; simpl; [constructor|].
  rewrite insert_desc_perm. now constructor.
Qed.

Local Abbreviation descending := (descending key).

Lemma insert_desc_descending (x : A) (l : list A) :
  descending l -> descending (insert_desc key x l).
Proof.
  unfold Py.descending.
  induction l as [|y l IH]; simpl; intros Hl.
  - repeat constructor.
  - inversion Hl as [|? ? Hl' Hy]; subst.
    destruct (key x <? key y) eqn:E.
    + apply Z.ltb_lt in E. constructor; [now apply IH|].
      apply Forall_forall. intros z Hz.
      apply (Permutation_in _ (insert_desc_perm x l)) in Hz.
      destruct Hz as [<-|Hz]; [lia|].
      rewrite Forall_forall in Hy. now apply Hy.
    + apply Z.ltb_ge in E. constructor; [assumption|].
      constructor; [assumption|].
      eapply Forall_impl; [|exact Hy]. simpl. intros; lia.
Qed.

Lemma sort_reverse_descending (l : list A) : descending (sort_reverse key l).
Proof.
  induction l as [|x l IH]; simpl.
  - constructor.
  - now apply insert_desc_descending.
Qed.

Lemma insert_desc_head (x : A) (l : list A) :
  Forall (fun z => key z <= key x) l -> insert_desc key x l = x :: l.
Proof.
  destruct l as [|y l]; simpl; [reflexivity|].
  intros H. inversion H as [|? ? Hy _]; subst.
  destruct (key x <? key y) eqn:E; [|reflexivity].
  apply Z.ltb_lt in E. lia.
Qed.


Lemma descending_firstn (n : nat) (l : list A) :
  descending l -> descending (firstn n l).
Proof.
  unfold Py.descending. intros Hl. revert n.
  induction Hl as [|y l Hl IH Hy]; intros [|n]; simpl; try constructor.
  - apply IH.
  - apply Forall_forall. intros z Hz. apply In_firstn in Hz.
    rewrite Forall_forall in Hy. now apply Hy.
Qed.

(** Stability, in its strongest form: the sort commutes with every
    filter, so the elements picked by any predicate (those of one
    key, in particular) come out in the order they went in. *)
Lemma filter_insert_desc (p : A -> bool) (x : A) (l : list A) :
  descending l ->
  filter p (insert_desc key x l)
  = if p x then insert_desc key x (filter p l) else filter p l.
Proof.
  induction 1 as [|y l Hl IH Hy]; simpl.
  - now destruct (p x).
  - destruct (key x <? key y) eqn:E; simpl.
    + rewrite IH. destruct (p y), (p x); simpl; try rewrite E; reflexivity.
    + destruct (p x) eqn:Px; [|reflexivity].
      apply Z.ltb_ge in E.
      change (x :: filter p (y :: l) = insert_desc key x (filter p (y :: l))).
      symmetry. apply insert_desc_head.
      apply Forall_forall. intros z Hz. apply filter_In in Hz.
      destruct Hz as [[<-|Hz] _]; [assumption|].
      rewrite Forall_forall in Hy. specialize (Hy z Hz). simpl in Hy. lia.
Qed.

Lemma filter_sort_reverse (p : A -> bool) (l : list A) :
  filter p (sort_reverse key l) = sort_reverse key (filter p l).
Proof.
  induction l as [|x l IH]; simpl; [reflexivity|].
  rewrite filter_insert_desc by apply sort_reverse_descending.
  rewrite IH. now destruct (p x).
Qed.

(** A list that is already in order is left as it is. *)
Lemma sort_reverse_descending_id (l : list A) :
  descending l -> sort_reverse key l = l.
Proof.
  induction 1 as [|y l Hl IH Hy]; simpl; [reflexivity|].
  rewrite IH. apply insert_desc_head.
  eapply Forall_impl; [|exact Hy]. simpl. intros; lia.
Qed.

Lemma same_key_descending (k : Z) (l : list A) :
  Forall (fun z => key z = k) l -> descending l.
Proof.
  unfold Py.descending. induction 1 as [|y l Hy Hl IH]; constructor.
  - assumption.
  - eapply Forall_impl; [|exact Hl]. simpl. intros; lia.
Qed.

(** Ties keep their original relative order. *)
Lemma sort_reverse_stable (k : Z) (l : list A) :
  filter (fun z => key z =? k) (sort_reverse key l)
  = filter (fun z => key z =? k) l.
Proof.
  rewrite filter_sort_reverse. apply sort_reverse_descending_id.
  apply same_key_descending with (k := k).
  apply Forall_forall. intros z Hz. apply filter_In in Hz.
  now apply Z.eqb_eq.
Qed.

(** Two lists in descending order that hold the same elements of every
    key, in the same order, are the same list. *)
Lemma descending_same_keys_eq (l1 l2 : list A) :
  descending l1 -> descending l2 ->
  (forall k, filter (fun z => key z =? k) l1 = filter (fun z => key z =? k) l2) ->
  l1 = l2.
Proof.
  intros H1. revert l2.
  induction H1 as [|x l1 Hl1 IH Hx]; intros l2 H2 Hsame.
  - destruct l2 as [|y l2]; [reflexivity|].
    specialize (Hsame (key y)). simpl in Hsame.
    rewrite Z.eqb_refl in Hsame. discriminate.
  - destruct H2 as [|y l2 Hl2 Hy].
    + specialize (Hsame (key x)). simpl in Hsame.
      rewrite Z.eqb_refl in Hsame. discriminate.
    + assert (Hxy : key x <= key y).
      { pose proof (Hsame (key x)) as E. simpl in E.
        rewrite Z.eqb_refl in E.
        assert (Hin : In x (filter (fun z => key z =? key x) (y :: l2)))
          by (simpl; rewrite <- E; now left).
        apply filter_In in Hin. destruct Hin as [[<-|Hin] _]; [lia|].
        rewrite Forall_forall in Hy. now apply Hy. }
      assert (Hyx : key y <= key x).
      { pose proof (Hsame (key y)) as E. simpl in E.
        rewrite Z.eqb_refl in E.
        assert (Hin : In y (filter (fun z => key z =? key y) (x :: l1)))
          by (simpl; rewrite E; now left).
        apply filter_In in Hin. destruct Hin as [[<-|Hin] _]; [lia|].
        rewrite Forall_forall in Hx. now apply Hx. }
      assert (Heq : x = y).
      { pose proof (Hsame (key x)) as E. simpl in E.
        rewrite Z.eqb_refl in E.
        replace (key y =? key x) with true in E
          by (symmetry; apply Z.eqb_eq; lia).
        congruence. }
      subst y. f_equal. apply IH; [assumption|].
      intros k. specialize (Hsame k). simpl in Hsame.
      destruct (key x =? k); congruence.
Qed.

(** Hence the result of a stable descending sort is fixed by these
    two properties, whatever the algorithm: Python's sort returns what
    [sort_reverse] returns. *)
Lemma sort_reverse_unique (l sorted : list A) :
  descending sorted ->
  (forall k, filter (fun z => key z =? k) sorted
             = filter (fun z => key z =? k) l) ->
  sorted = sort_reverse key l.
Proof.
  intros Hdesc Hstable.
  apply descending_same_keys_eq.
  - exact Hdesc.
  - apply sort_reverse_descending.
  - intros k. now rewrite sort_reverse_stable.
Qed.

(** The key may be computed before or after a key-preserving map. *)
Lemma sort_reverse_map {B : Type} (key' : B -> Z) (f : A -> B) (l : list A) :
  (forall x, key' (f x) = key x) ->
  sort_reverse key' (map f l) = map f (sort_reverse key l).
Proof.
  intros Hf. induction l as [|x l IH]; simpl; [reflexivity|].
  rewrite IH. generalize (sort_reverse key l). clear IH.
  induction l0 as [|y l0 IH]; simpl; [reflexivity|].
  rewrite !Hf. destruct (key x <? key y); simpl; [now rewrite IH|reflexivity].
Qed.
End SortFacts.

(** ** The order of the report and the played / unplayed partition *)

Lemma played_games_below (bound : Z) (l : list game) :
  bound <= 0 ->
  Forall (fun h => playtime h <= bound) l ->
  played_games l = [].
Proof.
  intros Hb. unfold played_games.
  induction 1 as [|h l Hh Hl IH]; simpl; [reflexivity|].
  destruct (0 <? playtime h) eqn:F; [apply Z.ltb_lt in F; lia|exact IH].
Qed.

Lemma played_games_cons (g : game) (l : list game) :
  played_games (g :: l)
  = if 0 <? playtime g then g :: played_games l else played_games l.
Proof. reflexivity. Qed.

Lemma unplayed_games_cons (g : game) (l : list game) :
  unplayed_games (g :: l)
  = if playtime g =? 0 then g :: unplayed_games l else unplayed_games l.
Proof. reflexivity. Qed.

(** In a list that is in descending order the played games form a
    prefix: nothing with a positive playtime follows a game without. *)
Lemma played_prefix (games : list game) :
  descending playtime games ->
  played_games games = firstn (List.length (played_games games)) games.
Proof.
  induction 1 as [|g l Hl IH Hg]; [reflexivity|].
  rewrite played_games_cons.
  destruct (0 <? playtime g) eqn:E; simpl.
  - now rewrite <- IH.
  - apply Z.ltb_ge in E.
    now rewrite (played_games_below (playtime g) l E Hg).
Qed.

Lemma played_unplayed_split (games : list game) :
  descending playtime games ->
  Forall (fun g => 0 <= playtime g) games ->
  played_games games ++ unplayed_games games = games.
Proof.
  induction 1 as [|g l Hl IH Hg]; intros Hpos; [reflexivity|].
  inversion Hpos as [|? ? Hg0 Hl0]; subst.
  specialize (IH Hl0).
  rewrite played_games_cons, unplayed_games_cons.
  destruct (0 <? playtime g) eqn:E.
  - assert (F : (playtime g =? 0) = false)
      by (apply Z.ltb_lt in E; apply Z.eqb_neq; lia).
    rewrite F. simpl. now f_equal.
  - apply Z.ltb_ge in E.
    assert (F : (playtime g =? 0) = true) by (apply Z.eqb_eq; lia).
    rewrite F.
    rewrite (played_games_below (playtime g) l E Hg) in *. simpl in *.
    now f_equal.
Qed.


(** C4: with no negative playtime, the played and the unplayed games
    split the library: the sizes add up, the played ones have a
    positive playtime, the unplayed ones playtime 0, and together they
    are the input games (one after the other they are the sorted
    list). *)
Theorem played_unplayed_partition (games : list game) :
  Forall (fun g => 0 <= playtime g) games ->
  let sorted := sort_reverse playtime games in
  (List.length (played_games sorted) + List.length (unplayed_games sorted)
   = List.length games)%nat
  /\ Forall (fun g => 0 < playtime g) (played_games sorted)
  /\ Forall (fun g => playtime g = 0) (unplayed_games sorted)
  /\ played_games sorted ++ unplayed_games sorted = sorted
  /\ Permutation (played_games sorted ++ unplayed_games sorted) games.
Proof.
  intros Hpos sorted.
  assert (Hperm : Permutation sorted games) by apply sort_reverse_perm.
  assert (Hsplit : played_games sorted ++ unplayed_games sorted = sorted).
  { apply played_unplayed_split; [apply sort_reverse_descending|].
    apply Forall_forall. intros g Hg. rewrite Forall_forall in Hpos.
    apply Hpos. now apply (Permutation_in _ Hperm). }
  repeat split.
  - rewrite <- length_app, Hsplit. now apply Permutation_length.
  - apply Forall_forall. intros g Hg. apply filter_In in Hg.
    now apply Z.ltb_lt.
  - apply Forall_forall. intros g Hg. apply filter_In in Hg.
    now apply Z.eqb_eq.
  - exact Hsplit.
  - now rewrite Hsplit.
Qed.

(** ** The ranking section *)

Lemma descending_app_le {A : Type} (key : A -> Z) (l1 l2 : list A) :
  descending key (l1 ++ l2) ->
  forall x y, In x l1 -> In y l2 -> key y <= key x.
Proof.
  unfold descending. induction l1 as [|a l1 IH]; simpl; intros H x y Hx Hy.
  - contradiction.
  - inversion H as [|? ? Hl Ha]; subst. destruct Hx as [<-|Hx].
    + rewrite Forall_forall in Ha. apply Ha. apply in_or_app. now right.
    + now apply IH.
Qed.

Lemma played_games_firstn (n : nat) (games : list game) :
  descending playtime games ->
  played_games (firstn n games) = firstn n (played_games games).
Proof.
  intros H. revert n.
  induction H as [|g l Hl IH Hg]; intros [|n]; try reflexivity.
  change (firstn (S n) (g :: l)) with (g :: firstn n l).
  rewrite !played_games_cons.
  destruct (0 <? playtime g) eqn:E.
  - simpl. now rewrite IH.
  - apply Z.ltb_ge in E.
    rewrite (played_games_below (playtime g) l E Hg).
    rewrite (played_games_below (playtime g) (firstn n l) E).
    + reflexivity.
    + apply Forall_forall. intros h Hh. apply In_firstn in Hh.
      rewrite Forall_forall in Hg. now apply Hg.
Qed.

(** The loop over [enumerate(top_games, 1)] skips nothing but a tail:
    it numbers the played games of the top list from 1 without gaps. *)
Lemma ranking_entries_from (start : Z) (top : list game) :
  descending playtime top ->
  flat_map (fun '(i, g) => if 0 <? playtime g then [ranking_line i g] else [])
           (enumerate top start)
  = map (fun '(i, g) => ranking_line i g) (enumerate (played_games top) start).
Proof.
  intros H. revert start.
  induction H as [|g l Hl IH Hg]; intros start; [reflexivity|].
  rewrite played_games_cons. simpl.
  destruct (0 <? playtime g) eqn:E; simpl.
  - now rewrite IH.
  - apply Z.ltb_ge in E. rewrite IH.
    now rewrite (played_games_below (playtime g) l E Hg).
Qed.

Lemma ranking_lines_played (games : list game) :
  descending playtime games ->
  ranking_lines games
  = match played_games games with
    | [] => []
    | _ :: _ =>
        [ "## 🏆 遊戲時間排行榜 (前10名)"; "" ]
        ++ ranking_entries (top_games games) ++ [ "" ]
    end.
Proof.
  intros H. unfold ranking_lines.
  destruct H as [|g l Hl Hg]; [reflexivity|].
  change (top_games (g :: l)) with (g :: firstn 9 l).
  rewrite played_games_cons.
  destruct (0 <? playtime g) eqn:E; [reflexivity|].
  apply Z.ltb_ge in E. now rewrite (played_games_below (playtime g) l E Hg).
Qed.

Lemma length_enumerate {A : Type} (l : list A) (start : Z) :
  List.length (enumerate l start) = List.length l.
Proof.
  revert start. induction l as [|x l IH]; intros start; simpl; [reflexivity|].
  now rewrite IH.
Qed.

Lemma length_played_sorted (games : list game) :
  List.length (played_games (sort_reverse playtime games))
  = List.length (played_games games).
Proof.
  unfold played_games. rewrite filter_sort_reverse.
  apply Permutation_length, sort_reverse_perm.
Qed.

(** C1, as the code has it: no ranking section when no game has been
    played (every playtime 0, in particular); otherwise the section
    lists exactly [min(10, number of played games)] entries, numbered
    from 1, and they are the first games of the sorted list: played
    games, none with less playtime than a game left out. *)
Theorem ranking_section_top_played (games : list game) :
  let sorted := sort_reverse playtime games in
  let k := Nat.min 10 (List.length (played_games games)) in
  let top := firstn k sorted in
  (Forall (fun g => playtime g = 0) games -> ranking_lines sorted = [])
  /\ ranking_lines sorted
     = match k with
       | O => []
       | S _ =>
           [ "## 🏆 遊戲時間排行榜 (前10名)"; "" ]
           ++ map (fun '(i, g) => ranking_line i g) (enumerate top 1)
           ++ [ "" ]
       end
  /\ ranking_entries (top_games sorted)
     = map (fun '(i, g) => ranking_line i g) (enumerate top 1)
  /\ List.length (ranking_entries (top_games sorted)) = k
  /\ Forall (fun g => 0 < playtime g) top
  /\ (forall g h, In g top -> In h (skipn k sorted) ->
        playtime h <= playtime g).
Proof.
  intros sorted k top.
  pose proof (sort_reverse_descending playtime games) as Hs.
  fold sorted in Hs.
  assert (Hlen : List.length (played_games sorted)
                 = List.length (played_games games))
    by apply length_played_sorted.
  assert (Htop : played_games (top_games sorted) = top).
  { unfold top_games. rewrite (played_games_firstn 10 sorted Hs).
    rewrite (played_prefix sorted Hs) at 1.
    rewrite firstn_firstn, Hlen. reflexivity. }
  assert (Hent : ranking_entries (top_games sorted)
                 = map (fun '(i, g) => ranking_line i g) (enumerate top 1)).
  { unfold ranking_entries. rewrite ranking_entries_from.
    - now rewrite Htop.
    - now apply descending_firstn. }
  assert (Hall : ranking_lines sorted
     = match k with
       | O => []
       | S _ =>
           [ "## 🏆 遊戲時間排行榜 (前10名)"; "" ]
           ++ map (fun '(i, g) => ranking_line i g) (enumerate top 1)
           ++ [ "" ]
       end).
  { rewrite (ranking_lines_played sorted Hs), Hent.
    subst k. rewrite <- Hlen.
    destruct (played_games sorted); reflexivity. }
  repeat split.
  - intros Hzero. rewrite Hall.
    assert (Hnone : played_games games = []).
    { apply (played_games_below 0); [lia|].
      eapply Forall_impl; [|exact Hzero]. simpl. intros; lia. }
    subst k. now rewrite Hnone.
  - exact Hall.
  - exact Hent.
  - rewrite Hent, length_map, length_enumerate. subst top.
    rewrite firstn_length_le; [reflexivity|].
    subst k. rewrite <- Hlen.
    etransitivity; [apply Nat.le_min_r|]. apply filter_length_le.
  - rewrite <- Htop. apply Forall_forall. intros g Hg.
    apply filter_In in Hg. now apply Z.ltb_lt.
  - intros g h Hg Hh.
    apply (descending_app_le playtime top (skipn k sorted)); try assumption.
    subst top. now rewrite firstn_skipn.
Qed.

(** ** Totals and the average *)

Lemma fold_left_playtime (l : list game) (acc : Z) :
  fold_left (fun a g => a + playtime g) l acc = acc + total_minutes l.
Proof.
  unfold total_minutes. revert acc.
  induction l as [|g l IH]; intros acc; cbn [fold_left]; [lia|].
  rewrite (IH (acc + playtime g)), (IH (0 + playtime g)). lia.
Qed.

Lemma total_minutes_cons (g : game) (l : list game) :
  total_minutes (g :: l) = playtime g + total_minutes l.
Proof.
  unfold total_minutes at 1. simpl. rewrite fold_left_playtime. lia.
Qed.

Lemma total_minutes_app (l1 l2 : list game) :
  total_minutes (l1 ++ l2) = total_minutes l1 + total_minutes l2.
Proof.
  induction l1 as [|g l1 IH]; simpl; [reflexivity|].
  rewrite !total_minutes_cons, IH. lia.
Qed.

Lemma total_minutes_perm (l1 l2 : list game) :
  Permutation l1 l2 -> total_minutes l1 = total_minutes l2.
Proof.
  induction 1; rewrite ?total_minutes_cons; lia.
Qed.




(** ** Games without a ['playtime_forever'] key *)

Lemma playtime_with_key (g : game) : playtime (with_playtime_key g) = playtime g.
Proof. reflexivity. Qed.

Lemma total_minutes_with_key (l : list game) :
  total_minutes (map with_playtime_key l) = total_minutes l.
Proof.
  induction l as [|g l IH]; [reflexivity|].
  simpl map. rewrite !total_minutes_cons, IH. reflexivity.
Qed.

Lemma played_games_with_key (l : list game) :
  played_games (map with_playtime_key l) = map with_playtime_key (played_games l).
Proof.
  induction l as [|g l IH]; [reflexivity|].
  simpl map. rewrite !played_games_cons, playtime_with_key, IH.
  now destruct (0 <? playtime g).
Qed.

Lemma unplayed_games_with_key (l : list game) :
  unplayed_games (map with_playtime_key l)
  = map with_playtime_key (unplayed_games l).
Proof.
  induction l as [|g l IH]; [reflexivity|].
  simpl map. rewrite !unplayed_games_cons, playtime_with_key, IH.
  now destruct (playtime g =? 0).
Qed.

Lemma ranking_entries_with_key (l : list game) :
  ranking_entries (map with_playtime_key l) = ranking_entries l.
Proof.
  unfold ranking_entries. generalize 1.
  induction l as [|g l IH]; intros start; [reflexivity|].
  simpl. now rewrite IH.
Qed.

Lemma map_row_with_key (row : game -> string) (l : list game) :
  (forall g, row (with_playtime_key g) = row g) ->
  map row (map with_playtime_key l) = map row l.
Proof.
  intros H. rewrite map_map. apply map_ext. exact H.
Qed.

Lemma len_map {A B : Type} (f : A -> B) (l : list A) : len (map f l) = len l.
Proof. unfold len. now rewrite length_map. Qed.

(** Every block of the report reads a game through [playtime],
    [game_name] and [app_id] only. *)
Lemma markdown_content_with_key (player_info : option player) (games : list game) :
  markdown_content player_info (map with_playtime_key games)
  = markdown_content player_info games.
Proof.
  unfold markdown_content.
  rewrite (sort_reverse_map playtime playtime with_playtime_key games
             playtime_with_key).
  set (sorted := sort_reverse playtime games).
  assert (Hhead : header_lines player_info (map with_playtime_key sorted)
                  = header_lines player_info sorted).
  { unfold header_lines. now rewrite len_map, total_minutes_with_key. }
  assert (Hstat : statistics_lines (map with_playtime_key sorted)
                  = statistics_lines sorted).
  { unfold statistics_lines, average_lines, avg_playtime.
    rewrite played_games_with_key, unplayed_games_with_key, !len_map,
      total_minutes_with_key.
    now destruct (played_games sorted). }
  assert (Hrank : ranking_lines (map with_playtime_key sorted)
                  = ranking_lines sorted).
  { unfold ranking_lines, top_games. rewrite firstn_map.
    rewrite ranking_entries_with_key.
    now destruct (firstn 10 sorted). }
  assert (Hplayed : played_table (map with_playtime_key sorted)
                    = played_table sorted).
  { unfold played_table. rewrite played_games_with_key.
    rewrite (map_row_with_key played_row) by reflexivity.
    now destruct (played_games sorted). }
  assert (Hunplayed : unplayed_table (map with_playtime_key sorted)
                      = unplayed_table sorted).
  { unfold unplayed_table. rewrite unplayed_games_with_key.
    rewrite (map_row_with_key unplayed_row) by reflexivity.
    now destruct (unplayed_games sorted). }
  now rewrite Hhead, Hstat, Hrank, Hplayed, Hunplayed.
Qed.

(** C10: a game record without the ['playtime_forever'] key counts as
    one with playtime 0 wherever the report computes with it: it adds
    nothing to the total, it is sorted by key 0, it is listed among the
    unplayed games and not among the played ones, and writing the key
    out with value 0 changes no line of the report. *)
Theorem missing_playtime_counts_as_zero
        (player_info : option player) (games : list game) (g : game) :
  playtime_forever g = None ->
  In g games ->
  playtime g = 0
  /\ with_playtime_key g = mkGame (appid g) (name g) (Some 0)
  /\ (forall before after,
        total_minutes (before ++ g :: after) = total_minutes (before ++ after))
  /\ sort_reverse playtime (map with_playtime_key games)
     = map with_playtime_key (sort_reverse playtime games)
  /\ In g (unplayed_games (sort_reverse playtime games))
  /\ ~ In g (played_games (sort_reverse playtime games))
  /\ markdown_content player_info (map with_playtime_key games)
     = markdown_content player_info games.
Proof.
  intros Hkey Hin.
  assert (Hzero : playtime g = 0) by (unfold playtime; now rewrite Hkey).
  assert (Hsorted : In g (sort_reverse playtime games)).
  { apply (Permutation_in _ (Permutation_sym (sort_reverse_perm playtime games))).
    exact Hin. }
  repeat split.
  - exact Hzero.
  - unfold with_playtime_key. now rewrite Hzero.
  - intros before after.
    rewrite !total_minutes_app, total_minutes_cons. lia.
  - apply sort_reverse_map. exact playtime_with_key.
  - apply filter_In. split; [assumption|]. now apply Z.eqb_eq.
  - intros H. apply filter_In in H. destruct H as [_ H].
    apply Z.ltb_lt in H. lia.
  - apply markdown_content_with_key.
Qed.

(** ** Traces of the fetch methods *)

Lemma requests_made_app (t u : list event) :
  requests_made (t ++ u) = (requests_made t + requests_made u)%nat.
Proof. unfold requests_made. now rewrite filter_app, length_app. Qed.

Lemma writes_app (t u : list event) :
  filter is_write (t ++ u) = filter is_write t ++ filter is_write u.
Proof. apply filter_app. Qed.

(** One turn of the loop of [get_owned_games], spelled out on the
    trace. *)
Lemma get_owned_games_from_cons (attempt : Z) (rest : list Z) (t : list event) :
  get_owned_games_from (attempt :: rest) t
  = let t1 :=
      t ++ [ Printed ("正在獲取遊戲列表... (嘗試 " +++ str_int (attempt + 1) +++ "/3)");
             Requested (base_url +++ "/IPlayerService/GetOwnedGames/v0001/")
               [("key", api_key); ("steamid", steam_id); ("format", "json");
                ("include_appinfo", "True");
                ("include_played_free_games", "True")] ] in
    match network (requests_made t) with
    | Status429 =>
        get_owned_games_from rest
          (t1 ++ [ Printed ("API請求過於頻繁，等待 "
                              +++ str_int (60 * (attempt + 1)) +++ " 秒後重試...");
                   Slept (60 * (attempt + 1)) ])
    | Ok data =>
        match response_field data with
        | Some (mkResponse (Some games) _) =>
            (Some games,
             t1 ++ [ Printed ("✅ 成功獲取 " +++ str_int (Z.of_nat (List.length games))
                                +++ " 個遊戲") ])
        | _ =>
            (Some [],
             t1 ++ [ Printed "無法獲取遊戲資料，請檢查API key和Steam ID是否正確" ])
        end
    | RequestException e =>
        let t2 :=
          t1 ++ [ Printed ("API請求失敗 (嘗試 " +++ str_int (attempt + 1)
                             +++ "/3): " +++ e) ] in
        if attempt <? 2 then
          get_owned_games_from rest
            (t2 ++ [ Printed ("等待 " +++ str_int (30 * (attempt + 1))
                                +++ " 秒後重試...");
                     Slept (30 * (attempt + 1)) ])
        else (Some [], t2 ++ [ Printed "所有重試都失敗了" ])
    end.
Proof.
  cbn [get_owned_games_from].
  unfold bind, print, time_sleep, emit, requests_get, ret.
  rewrite requests_made_app. cbn [requests_made filter is_request List.length].
  rewrite Nat.add_0_r.
  destruct (network (requests_made t)) as [|e|data].
  - rewrite <- !app_assoc. reflexivity.
  - destruct (attempt <? 2); rewrite <- !app_assoc; reflexivity.
  - destruct (response_field data) as [[[games|] ?]|];
      rewrite <- !app_assoc; reflexivity.
Qed.

(** One turn of the loop of [get_player_summary]. *)
Lemma get_player_summary_from_cons (attempt : Z) (rest : list Z) (t : list event) :
  get_player_summary_from (attempt :: rest) t
  = let t1 :=
      t ++ [ Printed ("正在獲取玩家資訊... (嘗試 " +++ str_int (attempt + 1) +++ "/3)") ]
        ++ (if 0 <? attempt then [ Slept 2 ] else [])
        ++ [ Requested (base_url +++ "/ISteamUser/GetPlayerSummaries/v0002/")
               [("key", api_key); ("steamids", steam_id)] ] in
    match network (requests_made t) with
    | Status429 =>
        get_player_summary_from rest
          (t1 ++ [ Printed ("API請求過於頻繁，等待 "
                              +++ str_int (60 * (attempt + 1)) +++ " 秒後重試...");
                   Slept (60 * (attempt + 1)) ])
    | Ok data =>
        match response_field data with
        | Some (mkResponse _ (Some (p :: _))) =>
            (Some p, t1 ++ [ Printed "✅ 成功獲取玩家資訊" ])
        | _ =>
            (None, t1 ++ [ Printed "⚠️ 無法獲取玩家資訊，但會繼續處理遊戲列表" ])
        end
    | RequestException e =>
        let t2 :=
          t1 ++ [ Printed ("獲取玩家資訊失敗 (嘗試 " +++ str_int (attempt + 1)
                             +++ "/3): " +++ e) ] in
        if attempt <? 2 then
          get_player_summary_from rest
            (t2 ++ [ Printed ("等待 " +++ str_int (30 * (attempt + 1))
                                +++ " 秒後重試...");
                     Slept (30 * (attempt + 1)) ])
        else
          (None, t2 ++ [ Printed "⚠️ 無法獲取玩家資訊，但會繼續處理遊戲列表" ])
    end.
Proof.
  cbn [get_player_summary_from].
  unfold bind, print, time_sleep, emit, requests_get, ret.
  assert (Hn : forall u, requests_made
                 ((t ++ [Printed u]) ++ (if 0 <? attempt then [Slept 2] else []))
               = requests_made t).
  { intros u. rewrite !requests_made_app.
    destruct (0 <? attempt); cbn; lia. }
  destruct (0 <? attempt) eqn:E.
  - specialize (Hn ("正在獲取玩家資訊... (嘗試 " +++ str_int (attempt + 1) +++ "/3)")).
    cbn [app] in Hn. rewrite Hn.
    destruct (network (requests_made t)) as [|e|data].
    + rewrite <- !app_assoc. reflexivity.
    + destruct (attempt <? 2); rewrite <- !app_assoc; reflexivity.
    + destruct (response_field data) as [[? [[|p ?]|]]|];
        rewrite <- !app_assoc; reflexivity.
  - specialize (Hn ("正在獲取玩家資訊... (嘗試 " +++ str_int (attempt + 1) +++ "/3)")).
    rewrite app_nil_r in Hn. rewrite Hn.
    destruct (network (requests_made t)) as [|e|data].
    + rewrite <- !app_assoc. reflexivity.
    + destruct (attempt <? 2); rewrite <- !app_assoc; reflexivity.
    + destruct (response_field data) as [[? [[|p ?]|]]|];
        rewrite <- !app_assoc; reflexivity.
Qed.

Lemma continues_app (t u : list event) (n : nat) :
  (requests_made u <= n)%nat -> filter is_write u = [] -> continues t (t ++ u) n.
Proof. intros Hn Hw. now exists u. Qed.

Lemma continues_trans (t1 t2 t3 : list event) (n m : nat) :
  continues t1 t2 n -> continues t2 t3 m -> continues t1 t3 (n + m).
Proof.
  intros [u [-> [Hu Wu]]] [v [-> [Hv Wv]]].
  exists (u ++ v). split; [now rewrite app_assoc|]. split.
  - rewrite requests_made_app. lia.
  - now rewrite writes_app, Wu, Wv.
Qed.

Lemma continues_weaken (t t' : list event) (n m : nat) :
  (n <= m)%nat -> continues t t' n -> continues t t' m.
Proof.
  intros Hnm [u [-> [Hu Wu]]]. exists u.
  split; [reflexivity|]. split; [lia|assumption].
Qed.

Lemma continues_requests (t t' : list event) (n : nat) :
  continues t t' n -> (requests_made t' <= requests_made t + n)%nat.
Proof. intros [u [-> [Hu _]]]. rewrite requests_made_app. lia. Qed.

Lemma continues_writes (t t' : list event) (n : nat) :
  continues t t' n -> filter is_write t' = filter is_write t.
Proof. intros [u [-> [_ Wu]]]. now rewrite writes_app, Wu, app_nil_r. Qed.

(** Closes [continues t (t ++ u1 ++ ...) n] for explicit suffixes. *)
Ltac continue_explicitly :=
  rewrite <- ?app_assoc; apply continues_app; cbn; [lia|reflexivity].

(** Goes one turn further: the trace so far, then the rest of the loop. *)
Ltac continue_with IH :=
  match goal with
  | |- continues _ _ (List.length (_ :: ?rest)) =>
      change (List.length (_ :: rest)) with (1 + List.length rest)%nat
  end;
  eapply continues_trans; [|apply IH]; continue_explicitly.

(** Neither loop issues more requests than it has attempts, and
    neither writes a file. *)
Lemma get_owned_games_from_continues (attempts : list Z) (t : list event) :
  continues t (snd (get_owned_games_from attempts t)) (List.length attempts).
Proof.
  revert t. induction attempts as [|attempt rest IH]; intros t.
  - cbn. rewrite <- (app_nil_r t) at 2. apply continues_app; cbn; [lia|reflexivity].
  - rewrite get_owned_games_from_cons. cbv zeta.
    destruct (network (requests_made t)) as [|e|data].
    + continue_with IH.
    + destruct (attempt <? 2).
      * continue_with IH.
      * cbn [snd]. continue_explicitly.
    + destruct (response_field data) as [[[games|] ?]|];
        cbn [snd]; continue_explicitly.
Qed.

Lemma get_player_summary_from_continues (attempts : list Z) (t : list event) :
  continues t (snd (get_player_summary_from attempts t)) (List.length attempts).
Proof.
  revert t. induction attempts as [|attempt rest IH]; intros t.
  - cbn. rewrite <- (app_nil_r t) at 2. apply continues_app; cbn; [lia|reflexivity].
  - rewrite get_player_summary_from_cons. cbv zeta.
    destruct (network (requests_made t)) as [|e|data].
    + destruct (0 <? attempt); continue_with IH.
    + destruct (0 <? attempt), (attempt <? 2);
        first [continue_with IH | cbn [snd]; continue_explicitly].
    + destruct (0 <? attempt);
        destruct (response_field data) as [[? [[|p ?]|]]|];
        cbn [snd]; continue_explicitly.
Qed.

(** ** The run of [generate_markdown_report] *)

Lemma print_all_run (lines : list string) (t : list event) :
  print_all lines t = (tt, t ++ map Printed lines).
Proof.
  revert t. induction lines as [|line rest IH]; intros t; cbn.
  - now rewrite app_nil_r.
  - unfold bind, print, emit. rewrite IH. now rewrite <- app_assoc.
Qed.

Lemma write_report_run (output_file : string) (games : list game) (t : list event) :
  write_report output_file games t
  = let t2 := t ++ [ Printed "⏳ 等待5秒後獲取玩家資訊..."; Slept 5 ] in
    let player_info := fst (get_player_summary t2) in
    let sorted := sort_reverse playtime games in
    (tt,
     snd (get_player_summary t2)
     ++ match write_error output_file with
        | None =>
            [ Wrote output_file (join_lines (markdown_content player_info games));
              Printed ("✅ 報告已生成: " +++ output_file);
              Printed ("📊 總共掃描了 " +++ str_int (len sorted) +++ " 款遊戲");
              Printed ("⏱️ 總遊戲時間: "
                         +++ minutes_to_hours (PyInt (total_minutes sorted))) ]
        | Some e => [ Printed ("❌ 寫入檔案時發生錯誤: " +++ e) ]
        end).
Proof.
  unfold write_report, bind, print, time_sleep, emit. cbv zeta.
  rewrite <- app_assoc. cbn [app].
  destruct (get_player_summary _) as [player_info t3]. cbn [fst snd].
  destruct (write_error output_file); [reflexivity|].
  rewrite <- !app_assoc. reflexivity.
Qed.

Lemma generate_markdown_report_run (output_file : string) (t : list event) :
  generate_markdown_report output_file t
  = let t0 := t ++ [ Printed "=== 開始掃描Steam遊戲庫 ===";
                     Printed "提示：如果遇到API限制，程式會自動等待並重試";
                     Printed "" ] in
    match fst (get_owned_games t0) with
    | Some (g :: l) => write_report output_file (g :: l) (snd (get_owned_games t0))
    | _ => (tt, snd (get_owned_games t0) ++ map Printed diagnostics)
    end.
Proof.
  unfold generate_markdown_report, bind, print, emit. cbv zeta.
  rewrite <- !app_assoc. cbn [app].
  destruct (get_owned_games _) as [[[|g l]|] t1]; cbn [fst snd];
    try apply print_all_run; reflexivity.
Qed.

(** C9: when [get_owned_games] comes back with [None] or with an empty
    list, and a library of zero games is such a case, the run ends with
    the five diagnostic lines and no file is written: the trace after
    the fetch is the same whatever made the list empty. *)
Theorem no_games_returns_early (output_file : string) (t : list event) :
  let t0 := t ++ [ Printed "=== 開始掃描Steam遊戲庫 ===";
                   Printed "提示：如果遇到API限制，程式會自動等待並重試";
                   Printed "" ] in
  fst (get_owned_games t0) = None \/ fst (get_owned_games t0) = Some [] ->
  generate_markdown_report output_file t
  = (tt, snd (get_owned_games t0) ++ map Printed diagnostics)
  /\ filter is_write (snd (generate_markdown_report output_file t))
     = filter is_write t
  /\ (forall players,
        network (requests_made t)
        = Ok (mkJson (Some (mkResponse (Some []) players))) ->
        fst (get_owned_games t0) = Some []).
Proof.
  intros t0 Hempty.
  assert (Hrun : generate_markdown_report output_file t
                 = (tt, snd (get_owned_games t0) ++ map Printed diagnostics)).
  { rewrite generate_markdown_report_run. cbv zeta. subst t0.
    destruct Hempty as [H | H]; rewrite H; reflexivity. }
  split; [exact Hrun|]. split.
  - rewrite Hrun. cbn [snd]. rewrite writes_app.
    pose proof (get_owned_games_from_continues [0; 1; 2] t0) as Hc.
    apply continues_writes in Hc. fold get_owned_games in Hc.
    rewrite Hc. subst t0. rewrite writes_app. cbn. now rewrite !app_nil_r.
  - intros players Hnet. unfold get_owned_games.
    rewrite get_owned_games_from_cons. cbv zeta.
    assert (Hn : requests_made t0 = requests_made t)
      by (subst t0; rewrite requests_made_app; cbn; lia).
    rewrite Hn, Hnet. reflexivity.
Qed.

(** ** Retries *)

(** Counts the requests of a trace that ends in explicit events. *)
Ltac count_requests :=
  rewrite ?requests_made_app;
  cbn [requests_made filter is_request List.length app];
  rewrite ?Nat.add_0_r, ?Nat.add_1_r.

(** A failed attempt that is not the last one hands over to the next
    attempt, one request later. *)
Lemma get_owned_games_retry (attempt : Z) (rest : list Z) (t : list event) :
  attempt < 2 ->
  failed (network (requests_made t)) = true ->
  exists t', get_owned_games_from (attempt :: rest) t = get_owned_games_from rest t'
             /\ requests_made t' = S (requests_made t).
Proof.
  intros Hlt Hfail. rewrite get_owned_games_from_cons. cbv zeta.
  destruct (network (requests_made t)) as [|e|data]; [| |discriminate].
  - eexists. split; [reflexivity|]. count_requests. reflexivity.
  - apply Z.ltb_lt in Hlt. rewrite Hlt.
    eexists. split; [reflexivity|]. count_requests. reflexivity.
Qed.

Lemma get_player_summary_retry (attempt : Z) (rest : list Z) (t : list event) :
  attempt < 2 ->
  failed (network (requests_made t)) = true ->
  exists t', get_player_summary_from (attempt :: rest) t
             = get_player_summary_from rest t'
             /\ requests_made t' = S (requests_made t).
Proof.
  intros Hlt Hfail. rewrite get_player_summary_from_cons. cbv zeta.
  destruct (network (requests_made t)) as [|e|data]; [| |discriminate].
  - eexists. split; [reflexivity|].
    destruct (0 <? attempt); count_requests; reflexivity.
  - apply Z.ltb_lt in Hlt. rewrite Hlt.
    eexists. split; [reflexivity|].
    destruct (0 <? attempt); count_requests; reflexivity.
Qed.

(** A 429 at any attempt, the last one too: wait, then go on with the
    attempts that are left. *)
Lemma get_owned_games_429 (attempt : Z) (rest : list Z) (t : list event) :
  network (requests_made t) = Status429 ->
  get_owned_games_from (attempt :: rest) t
  = get_owned_games_from rest
      (t ++ [ Printed ("正在獲取遊戲列表... (嘗試 " +++ str_int (attempt + 1) +++ "/3)");
              Requested (base_url +++ "/IPlayerService/GetOwnedGames/v0001/")
                [("key", api_key); ("steamid", steam_id); ("format", "json");
                 ("include_appinfo", "True");
                 ("include_played_free_games", "True")];
              Printed ("API請求過於頻繁，等待 "
                         +++ str_int (60 * (attempt + 1)) +++ " 秒後重試...");
              Slept (60 * (attempt + 1)) ]).
Proof.
  intros Hnet. rewrite get_owned_games_from_cons. cbv zeta. rewrite Hnet.
  now rewrite <- app_assoc.
Qed.

(** X1: neither fetch method issues more than three HTTP requests,
    whatever the network answers. *)
Theorem fetch_at_most_three_requests (t : list event) :
  (requests_made (snd (get_owned_games t)) <= requests_made t + 3)%nat
  /\ (requests_made (snd (get_player_summary t)) <= requests_made t + 3)%nat.
Proof.
  split.
  - apply (continues_requests t _ 3 (get_owned_games_from_continues [0; 1; 2] t)).
  - apply (continues_requests t _ 3 (get_player_summary_from_continues [0; 1; 2] t)).
Qed.

(** X2: after three failed attempts, 429s and exceptions in any mix,
    [get_player_summary] returns [None] and has issued three
    requests. *)
Theorem get_player_summary_exhausted (t : list event) :
  all_failed (requests_made t) 3 ->
  fst (get_player_summary t) = None
  /\ requests_made (snd (get_player_summary t)) = (requests_made t + 3)%nat.
Proof.
  intros Hall. unfold get_player_summary.
  pose proof (Hall 0%nat ltac:(lia)) as H0.
  pose proof (Hall 1%nat ltac:(lia)) as H1.
  pose proof (Hall 2%nat ltac:(lia)) as H2.
  rewrite Nat.add_0_r in H0.
  destruct (get_player_summary_retry 0 [1; 2] t ltac:(lia) H0) as [t1 [-> R1]].
  rewrite Nat.add_1_r, <- R1 in H1.
  destruct (get_player_summary_retry 1 [2] t1 ltac:(lia) H1) as [t2 [-> R2]].
  replace (requests_made t + 2)%nat with (requests_made t2) in H2 by lia.
  rewrite get_player_summary_from_cons. cbv zeta.
  change (0 <? 2) with true. change (2 <? 2) with false.
  destruct (network (requests_made t2)) as [|e|data]; [| |discriminate];
    cbn [get_player_summary_from ret fst snd]; count_requests;
    (split; [reflexivity|lia]).
Qed.

(** Three failed attempts of [get_owned_games]: the empty list when the
    last failure is an exception, Python's [None] when it is a 429. *)
Lemma get_owned_games_three_failures (t : list event) :
  all_failed (requests_made t) 3 ->
  fst (get_owned_games t)
  = match network (requests_made t + 2) with
    | Status429 => None
    | _ => Some []
    end
  /\ requests_made (snd (get_owned_games t)) = (requests_made t + 3)%nat.
Proof.
  intros Hall. unfold get_owned_games.
  pose proof (Hall 0%nat ltac:(lia)) as H0.
  pose proof (Hall 1%nat ltac:(lia)) as H1.
  pose proof (Hall 2%nat ltac:(lia)) as H2.
  rewrite Nat.add_0_r in H0.
  destruct (get_owned_games_retry 0 [1; 2] t ltac:(lia) H0) as [t1 [-> R1]].
  rewrite Nat.add_1_r, <- R1 in H1.
  destruct (get_owned_games_retry 1 [2] t1 ltac:(lia) H1) as [t2 [-> R2]].
  replace (requests_made t + 2)%nat with (requests_made t2) in * by lia.
  rewrite get_owned_games_from_cons. cbv zeta.
  change (2 <? 2) with false.
  destruct (network (requests_made t2)) as [|e|data]; [| |discriminate];
    cbn [get_owned_games_from ret fst snd]; count_requests;
    (split; [reflexivity|lia]).
Qed.

(** X3: after three failed attempts [get_owned_games] has issued three
    requests and returns the empty list when the third failure is an
    exception; when it is a 429 the loop runs out and the result is
    [None]. *)
Theorem get_owned_games_exhausted (t : list event) :
  all_failed (requests_made t) 3 ->
  requests_made (snd (get_owned_games t)) = (requests_made t + 3)%nat
  /\ (forall e, network (requests_made t + 2) = RequestException e ->
                fst (get_owned_games t) = Some [])
  /\ (network (requests_made t + 2) = Status429 ->
      fst (get_owned_games t) = None).
Proof.
  intros Hall.
  destruct (get_owned_games_three_failures t Hall) as [Hfst Hreq].
  split; [exact Hreq|]. split.
  - intros e He. now rewrite Hfst, He.
  - intros He. now rewrite Hfst, He.
Qed.

(** ** The player summary *)





(** ** minutes_to_hours *)

(** [round_div] against IEEE 754 division: the two agree on every
    [m / 60] for [m] up to 1000 and for the 200 ints below [2^53], and
    on a spread of other quotients of either sign. *)
Lemma round_div_is_ieee_division_on_samples :
  forallb (fun m => same_value (round_div m 60) (ieee_div m 60))
          (map Z.of_nat (seq 0 1001)) = true
  /\ forallb (fun m => same_value (round_div m 60) (ieee_div m 60))
             (map (fun i => 2 ^ 53 - Z.of_nat i) (seq 1 200)) = true
  /\ forallb (fun m =>
                forallb (fun d => andb (same_value (round_div m d) (ieee_div m d))
                                       (same_value (round_div (- m) d)
                                                   (ieee_div (- m) d)))
                        (map Z.of_nat (seq 1 20)))
             (map (fun i => 1 + 7919 * Z.of_nat i) (seq 0 100)) = true.
Proof. split; [|split]; vm_compute; reflexivity. Qed.

(** Rounding to nearest moves a fraction by at most a half. *)
Lemma round_half_even_bound (n d : Z) :
  0 <= n -> 0 < d ->
  n / d <= round_half_even n d /\ - d <= 2 * (d * round_half_even n d - n) <= d.
Proof.
  intros Hn Hd. unfold round_half_even.
  pose proof (Z.div_mod n d ltac:(lia)) as Hdm.
  pose proof (Z.mod_pos_bound n d Hd) as Hr.
  destruct (2 * (n mod d) <? d) eqn:E1; [apply Z.ltb_lt in E1; lia|].
  apply Z.ltb_ge in E1.
  destruct (d <? 2 * (n mod d)) eqn:E2; [apply Z.ltb_lt in E2; lia|].
  apply Z.ltb_ge in E2.
  destruct (Z.even (n / d)); lia.
Qed.

(** Below [60 * 2^48] the quotient by 60 is scaled up by [2^5] at
    least before it is rounded. *)
Lemma log2_quot_60_le (n : Z) : 0 < n < 60 * 2 ^ 48 -> log2_quot n 60 <= 47.
Proof.
  intros Hn. unfold log2_quot. change (Z.log2 60) with 5.
  assert (Hlog : Z.log2 n < 54).
  { apply Z.log2_lt_pow2; [lia|]. change (2 ^ 54) with 18014398509481984.
    change (2 ^ 48) with 281474976710656 in Hn. lia. }
  destruct (Z.eq_dec (Z.log2 n) 53) as [E|E].
  - rewrite E. change (53 - 5) with 48. cbn [Z.max Z.compare Z.opp].
    change (2 ^ 0) with 1.
    destruct (60 * 2 ^ 48 <=? n * 1) eqn:L; [apply Z.leb_le in L; lia|lia].
  - destruct (_ <=? _); lia.
Qed.

(** The float [m / 60] for [60 <= m < 60 * 2^48]: a mantissa [q] over
    [2^s], [s >= 5], within half a unit of the exact quotient. *)
Lemma truediv_60 (m : Z) :
  60 <= m < 60 * 2 ^ 48 ->
  exists s q,
    5 <= s /\ truediv (PyInt m) 60 = mkFloat q (- s)
    /\ 2 ^ s <= q /\ -30 <= 60 * q - m * 2 ^ s <= 30
    /\ (m mod 60 = 0 -> q = m / 60 * 2 ^ s).
Proof.
  intros Hm.
  pose proof (log2_quot_60_le m ltac:(lia)) as Hk.
  exists (52 - log2_quot m 60),
         (round_half_even (m * 2 ^ (52 - log2_quot m 60)) 60).
  set (s := 52 - log2_quot m 60) in *.
  assert (Hs : 5 <= s) by (subst s; lia).
  assert (Hp : 0 < 2 ^ s) by (apply Z.pow_pos_nonneg; lia).
  split; [exact Hs|]. split.
  - unfold truediv, round_div. cbn [num den].
    assert (E : (m =? 0) = false) by (apply Z.eqb_neq; lia). rewrite E.
    cbv zeta. rewrite Z.abs_eq by lia.
    change (1 * 60) with 60. fold s.
    rewrite (Z.max_r 0 s) by lia. rewrite (Z.max_l 0 (- s)) by lia.
    rewrite (Z.sgn_pos m) by lia.
    change (60 * 2 ^ 0) with 60. now rewrite Z.mul_1_l.
  - pose proof (round_half_even_bound (m * 2 ^ s) 60 ltac:(nia) ltac:(lia))
      as [Hfloor Hnear].
    set (q := round_half_even (m * 2 ^ s) 60) in *.
    split; [|split].
    + assert (2 ^ s <= m * 2 ^ s / 60); [|lia].
      apply Z.div_le_lower_bound; nia.
    + lia.
    + intros Hdiv.
      assert (Hm60 : m = 60 * (m / 60)).
      { pose proof (Z.div_mod m 60 ltac:(lia)). lia. }
      subst q. unfold round_half_even.
      assert (Hmul : m * 2 ^ s = 60 * (m / 60 * 2 ^ s)) by nia.
      assert (R : (m * 2 ^ s) mod 60 = 0).
      { rewrite Hmul, Z.mul_comm. apply Z.mod_mul. lia. }
      assert (Q : m * 2 ^ s / 60 = m / 60 * 2 ^ s).
      { rewrite Hmul at 1. rewrite Z.mul_comm. apply Z.div_mul. lia. }
      rewrite R, Q. reflexivity.
Qed.

Lemma append_assoc (a b c : string) : (a +++ b) +++ c = a +++ b +++ c.
Proof. induction a as [|ch a IH]; cbn; [reflexivity|now rewrite IH]. Qed.

Lemma fnum_scaled (q s : Z) : 0 <= s -> fnum (mkFloat q (- s)) = q.
Proof.
  intros Hs. unfold fnum. cbn [mant expo].
  rewrite Z.max_l by lia. change (2 ^ 0) with 1. lia.
Qed.

Lemma fden_scaled (q s : Z) : 0 <= s -> fden (mkFloat q (- s)) = 2 ^ s.
Proof.
  intros Hs. unfold fden. cbn [expo].
  rewrite Z.opp_involutive, Z.max_r by lia. reflexivity.
Qed.

(** Under an hour: the minutes are printed as they are. *)
Lemma minutes_to_hours_under_an_hour (m : Z) :
  0 < m < 60 -> minutes_to_hours (PyInt m) = str_int m +++ " 分鐘".
Proof.
  intros Hm.
  assert (Hall : forallb
            (fun i => String.eqb (minutes_to_hours (PyInt i))
                                 (str_int i +++ " 分鐘"))
            (map Z.of_nat (seq 1 59)) = true) by (vm_compute; reflexivity).
  rewrite forallb_forall in Hall.
  apply String.eqb_eq, Hall.
  rewrite <- (Z2Nat.id m) by lia. apply in_map, in_seq. lia.
Qed.

(** Whole hours. *)
Lemma minutes_to_hours_whole_hours (m : Z) :
  60 <= m < 60 * 2 ^ 48 -> m mod 60 = 0 ->
  minutes_to_hours (PyInt m) = str_int (m / 60) +++ " 小時".
Proof.
  intros Hm Hdiv.
  destruct (truediv_60 m Hm) as [s [q [Hs [Hq [Hge [Hnear Hexact]]]]]].
  specialize (Hexact Hdiv).
  assert (Hp : 0 < 2 ^ s) by (apply Z.pow_pos_nonneg; lia).
  unfold minutes_to_hours, eq_int, lt_int, int_of_float.
  cbn [num den]. rewrite Hq, fnum_scaled, fden_scaled by lia.
  assert (E0 : (m =? 0 * 1) = false) by (apply Z.eqb_neq; lia). rewrite E0.
  assert (E1 : (q <? 1 * 2 ^ s) = false) by (apply Z.ltb_ge; lia). rewrite E1.
  assert (Hquot : q ÷ 2 ^ s = m / 60).
  { rewrite Hexact. apply Z.quot_mul. lia. }
  rewrite Hquot.
  assert (E2 : (q =? m / 60 * 2 ^ s) = true) by (apply Z.eqb_eq; exact Hexact).
  rewrite E2. reflexivity.
Qed.

(** Anything else from an hour on: one decimal, and the nearest one. *)
Lemma minutes_to_hours_one_decimal (m : Z) :
  60 <= m < 60 * 2 ^ 48 -> m mod 60 <> 0 ->
  exists tenths,
    minutes_to_hours (PyInt m)
    = str_int (tenths / 10) +++ "." +++ str_int (tenths mod 10) +++ " 小時"
    /\ -3 <= 6 * tenths - m <= 3.
Proof.
  intros Hm Hdiv.
  destruct (truediv_60 m Hm) as [s [q [Hs [Hq [Hge [Hnear _]]]]]].
  assert (Hp : 32 <= 2 ^ s).
  { change 32 with (2 ^ 5). apply Z.pow_le_mono_r; lia. }
  exists (round_half_even (10 * Z.abs q) (2 ^ s)).
  pose proof (round_half_even_bound (10 * Z.abs q) (2 ^ s) ltac:(lia) ltac:(lia))
    as [_ Htenths].
  rewrite Z.abs_eq in * by lia.
  set (tenths := round_half_even (10 * q) (2 ^ s)) in *.
  split.
  - unfold minutes_to_hours, eq_int, lt_int, int_of_float, format_1f.
    cbn [num den]. rewrite Hq, fnum_scaled, fden_scaled by lia.
    assert (E0 : (m =? 0 * 1) = false) by (apply Z.eqb_neq; lia). rewrite E0.
    assert (E1 : (q <? 1 * 2 ^ s) = false) by (apply Z.ltb_ge; lia). rewrite E1.
    assert (E2 : (q =? q ÷ 2 ^ s * 2 ^ s) = false).
    { apply Z.eqb_neq. intros Hq'.
      apply Hdiv.
      assert (Hm' : m = 60 * (q ÷ 2 ^ s)) by nia.
      rewrite Hm', Z.mul_comm. apply Z.mod_mul. lia. }
    rewrite E2.
    assert (E3 : (q <? 0) = false) by (apply Z.ltb_ge; lia). rewrite E3.
    rewrite Z.abs_eq by lia. fold tenths.
    cbn [String.append]. now rewrite !append_assoc.
  - assert (Hid : 2 ^ s * (6 * tenths - m)
                 = 6 * (2 ^ s * tenths - 10 * q) + (60 * q - m * 2 ^ s)) by ring.
    nia.
Qed.

(** C3, as the code has it: for a minute count from 0 up to (not
    including) [60 * 2^48], [minutes_to_hours] returns the 0-hours
    text for 0, the minutes themselves below 60, the whole number of
    hours for a multiple of 60, and otherwise the hours with one
    decimal, the tenth nearest to [m / 60]; 0, 45, 120 and 90 minutes
    print as 0 hours, 45 minutes, 2 hours and 1.5 hours. *)
Theorem minutes_to_hours_labels (m : Z) :
  0 <= m < 60 * 2 ^ 48 ->
  (m = 0 -> minutes_to_hours (PyInt m) = "0 小時")
  /\ (0 < m < 60 -> minutes_to_hours (PyInt m) = str_int m +++ " 分鐘")
  /\ (60 <= m -> m mod 60 = 0 ->
      minutes_to_hours (PyInt m) = str_int (m / 60) +++ " 小時")
  /\ (60 <= m -> m mod 60 <> 0 ->
      exists tenths,
        minutes_to_hours (PyInt m)
        = str_int (tenths / 10) +++ "." +++ str_int (tenths mod 10) +++ " 小時"
        /\ -3 <= 6 * tenths - m <= 3)
  /\ minutes_to_hours (PyInt 0) = "0 小時"
  /\ minutes_to_hours (PyInt 45) = "45 分鐘"
  /\ minutes_to_hours (PyInt 120) = "2 小時"
  /\ minutes_to_hours (PyInt 90) = "1.5 小時".
Proof.
  intros Hm. split; [|split; [|split; [|split]]].
  - intros ->. reflexivity.
  - apply minutes_to_hours_under_an_hour.
  - intros H60. apply minutes_to_hours_whole_hours. lia.
  - intros H60. apply minutes_to_hours_one_decimal. lia.
  - repeat split; vm_compute; reflexivity.
Qed.

(** ** Time spent waiting *)

Lemma slept_app (t u : list event) : slept (t ++ u) = slept t + slept u.
Proof.
  induction t as [|e t IH]; [reflexivity|].
  cbn [app]. unfold slept in *. cbn [fold_right]. destruct e; lia.
Qed.

(** Adds up the seconds slept over a trace that ends in explicit
    events. *)
Ltac count_sleep :=
  cbn [get_owned_games_from get_player_summary_from ret fst snd];
  rewrite ?slept_app; cbn [slept fold_right]; lia.

Lemma wait_budget_nonneg (wait : Z -> Z) (attempts : list Z) :
  (forall a, 0 <= a -> 0 <= wait a) ->
  Forall (fun a => 0 <= a) attempts ->
  0 <= fold_right (fun a total => wait a + total) 0 attempts.
Proof.
  intros Hwait. induction 1 as [|a rest Ha _ IH]; cbn [fold_right]; [lia|].
  specialize (Hwait a Ha). lia.
Qed.

(** Takes the bound of the remaining attempts from the trace the loop
    goes on with. *)
Ltac sleep_of_the_rest IH loop rest :=
  match goal with
  | |- context [loop rest ?u] =>
      specialize (IH u); rewrite ?slept_app in IH;
      cbn [slept fold_right] in IH
  end;
  rewrite ?slept_app; cbn [slept fold_right]; lia.

(** Each attempt of [get_owned_games] waits [60 * (attempt + 1)]
    seconds at most. *)
Lemma get_owned_games_from_sleeps (attempts : list Z) (t : list event) :
  Forall (fun a => 0 <= a) attempts ->
  slept t <= slept (snd (get_owned_games_from attempts t))
  <= slept t + fold_right (fun a total => 60 * (a + 1) + total) 0 attempts.
Proof.
  intros H. revert t.
  induction H as [|attempt rest Ha Hrest IH]; intros t; [count_sleep|].
  pose proof (wait_budget_nonneg (fun a => 60 * (a + 1)) rest
                ltac:(intros; lia) Hrest) as Hbudget.
  cbv beta in Hbudget.
  rewrite get_owned_games_from_cons. cbv zeta. cbn [fold_right].
  destruct (network (requests_made t)) as [|e|data].
  - sleep_of_the_rest IH get_owned_games_from rest.
  - destruct (attempt <? 2).
    + sleep_of_the_rest IH get_owned_games_from rest.
    + count_sleep.
  - destruct (response_field data) as [[[games|] ?]|]; count_sleep.
Qed.

(** [get_player_summary] pauses 2 seconds more before every attempt but
    the first. *)
Lemma get_player_summary_from_sleeps (attempts : list Z) (t : list event) :
  Forall (fun a => 0 <= a) attempts ->
  slept t <= slept (snd (get_player_summary_from attempts t))
  <= slept t
     + fold_right (fun a total =>
                     (if 0 <? a then 2 else 0) + 60 * (a + 1) + total)
                  0 attempts.
Proof.
  intros H. revert t.
  induction H as [|attempt rest Ha Hrest IH]; intros t; [count_sleep|].
  pose proof (wait_budget_nonneg
                (fun a => (if 0 <? a then 2 else 0) + 60 * (a + 1)) rest
                ltac:(intros a ?; cbv beta; destruct (0 <? a); lia) Hrest)
    as Hbudget.
  cbv beta in Hbudget.
  rewrite get_player_summary_from_cons. cbv zeta. cbn [fold_right].
  destruct (network (requests_made t)) as [|e|data].
  - destruct (0 <? attempt);
      sleep_of_the_rest IH get_player_summary_from rest.
  - destruct (0 <? attempt), (attempt <? 2);
      first [sleep_of_the_rest IH get_player_summary_from rest | count_sleep].
  - destruct (0 <? attempt);
      destruct (response_field data) as [[? [[|p ?]|]]|]; count_sleep.
Qed.

Lemma get_owned_games_sleeps (t : list event) :
  slept t <= slept (snd (get_owned_games t)) <= slept t + 360.
Proof.
  apply (get_owned_games_from_sleeps [0; 1; 2] t).
  repeat constructor; lia.
Qed.

Lemma get_player_summary_sleeps (t : list event) :
  slept t <= slept (snd (get_player_summary t)) <= slept t + 364.
Proof.
  apply (get_player_summary_from_sleeps [0; 1; 2] t).
  repeat constructor; lia.
Qed.

(** X6: the waits of one fetch add up to 360 seconds at most for
    [get_owned_games] (60 + 120 + 180 after three 429s) and to 364
    seconds at most for [get_player_summary], which pauses 2 seconds
    more before its second and third requests. *)
Theorem fetch_waits_bounded (t : list event) :
  slept t <= slept (snd (get_owned_games t)) <= slept t + 360
  /\ slept t <= slept (snd (get_player_summary t)) <= slept t + 364.
Proof.
  split; [apply get_owned_games_sleeps|apply get_player_summary_sleeps].
Qed.

(** A fetch of games that succeeds has not waited after its last
    attempt: 180 seconds at most, after two failures. *)
Lemma get_owned_games_from_sleeps_before_success
      (attempts : list Z) (t : list event) (g : game) (l : list game) :
  Forall (fun a => 0 <= a) attempts ->
  fst (get_owned_games_from attempts t) = Some (g :: l) ->
  slept (snd (get_owned_games_from attempts t))
  <= slept t
     + fold_right (fun a total => 60 * (a + 1) + total) 0 (removelast attempts).
Proof.
  intros H. revert t.
  induction H as [|attempt rest Ha Hrest IH]; intros t; [discriminate|].
  assert (Hbudget : 0 <= fold_right (fun a total => 60 * (a + 1) + total) 0
                                    (removelast (attempt :: rest))).
  { apply (wait_budget_nonneg (fun a => 60 * (a + 1))); [intros; lia|].
    apply Forall_forall. intros a Hin.
    assert (Hall : Forall (fun a => 0 <= a) (attempt :: rest))
      by (constructor; assumption).
    rewrite Forall_forall in Hall. apply Hall.
    destruct (exists_last (l := attempt :: rest) ltac:(discriminate))
      as [front [z Heq]].
    rewrite Heq in *. rewrite removelast_last in Hin.
    apply in_or_app. now left. }
  rewrite get_owned_games_from_cons. cbv zeta.
  assert (Hgo : forall u,
            fst (get_owned_games_from rest u) = Some (g :: l) ->
            slept u <= slept t + 60 * (attempt + 1) ->
            slept (snd (get_owned_games_from rest u))
            <= slept t
               + fold_right (fun a total => 60 * (a + 1) + total) 0
                            (removelast (attempt :: rest))).
  { intros u Hu Hslept. specialize (IH u Hu).
    destruct rest as [|b rest]; [discriminate|].
    change (removelast (attempt :: b :: rest))
      with (attempt :: removelast (b :: rest)).
    cbn [fold_right]. lia. }
  destruct (network (requests_made t)) as [|e|data].
  - intros Hfst. apply Hgo; [exact Hfst|].
    rewrite ?slept_app. cbn [slept fold_right]. lia.
  - destruct (attempt <? 2); [|discriminate].
    intros Hfst. apply Hgo; [exact Hfst|].
    rewrite ?slept_app. cbn [slept fold_right]. lia.
  - intros _.
    destruct (response_field data) as [[[games|] ?]|];
      cbn [snd]; rewrite ?slept_app; cbn [slept fold_right]; lia.
Qed.

(** X7: a whole run of [generate_markdown_report] issues at most six
    HTTP requests and sleeps at most 549 seconds, whatever the network
    does: 180 before the games arrive, 5 between the two fetches, 364
    for the player summary; a run that never gets the games sleeps 360
    at most. *)
Theorem run_within_six_requests_and_549_seconds
        (output_file : string) (t : list event) :
  (requests_made (snd (generate_markdown_report output_file t))
   <= requests_made t + 6)%nat
  /\ slept t <= slept (snd (generate_markdown_report output_file t))
     <= slept t + 549.
Proof.
  rewrite generate_markdown_report_run. cbv zeta.
  set (t0 := t ++ _).
  assert (R0 : requests_made t0 = requests_made t)
    by (subst t0; count_requests; reflexivity).
  assert (S0 : slept t0 = slept t)
    by (subst t0; rewrite slept_app; cbn [slept fold_right]; lia).
  pose proof (continues_requests _ _ _ (get_owned_games_from_continues [0; 1; 2] t0))
    as R1.
  fold get_owned_games in R1. cbn [List.length] in R1.
  pose proof (get_owned_games_sleeps t0) as S1.
  assert (Hquiet : requests_made (map Printed diagnostics) = 0%nat
                   /\ slept (map Printed diagnostics) = 0)
    by (split; reflexivity).
  destruct Hquiet as [Rd Sd].
  destruct (fst (get_owned_games t0)) as [[|g l]|] eqn:Hgames.
  - cbn [snd]. rewrite requests_made_app, slept_app, Rd, Sd. lia.
  - pose proof (get_owned_games_from_sleeps_before_success [0; 1; 2] t0 g l
                  ltac:(repeat constructor; lia) Hgames) as S1'.
    fold get_owned_games in S1'. cbn [removelast fold_right] in S1'.
    rewrite write_report_run. cbv zeta. cbn [snd].
    set (t2 := snd (get_owned_games t0) ++ _).
    assert (R2 : requests_made t2 = requests_made (snd (get_owned_games t0)))
      by (subst t2; count_requests; reflexivity).
    assert (S2 : slept t2 = slept (snd (get_owned_games t0)) + 5)
      by (subst t2; rewrite slept_app; cbn [slept fold_right]; lia).
    pose proof (continues_requests _ _ _
                  (get_player_summary_from_continues [0; 1; 2] t2)) as R3.
    fold get_player_summary in R3. cbn [List.length] in R3.
    pose proof (get_player_summary_sleeps t2) as S3.
    rewrite requests_made_app, slept_app.
    destruct (write_error output_file);
      cbn [requests_made filter is_request List.length slept fold_right]; lia.
  - cbn [snd]. rewrite requests_made_app, slept_app, Rd, Sd. lia.
Qed.

(** ** What the tables hold *)

(** X8: the order of the two tables.  The played table lists the
    fetched games with a positive playtime in stable descending order;
    the unplayed table lists the games of playtime 0 in the order they
    were fetched in. *)
Theorem tables_keep_fetch_order (games : list game) :
  let sorted := sort_reverse playtime games in
  played_games sorted = sort_reverse playtime (played_games games)
  /\ unplayed_games sorted = unplayed_games games
  /\ played_table sorted
     = match played_games games with
       | [] => []
       | _ :: _ =>
           [ "### 已遊玩遊戲"; ""; "| 遊戲名稱 | 遊戲時間 | App ID |";
             "|----------|----------|--------|" ]
           ++ map played_row (sort_reverse playtime (played_games games))
           ++ [ "" ]
       end
  /\ unplayed_table sorted
     = match unplayed_games games with
       | [] => []
       | _ :: _ =>
           [ "### 未遊玩遊戲"; ""; "| 遊戲名稱 | App ID |"; "|----------|--------|" ]
           ++ map unplayed_row (unplayed_games games)
       end.
Proof.
  intros sorted.
  assert (Hplayed : played_games sorted
                    = sort_reverse playtime (played_games games))
    by apply filter_sort_reverse.
  assert (Hunplayed : unplayed_games sorted = unplayed_games games)
    by apply (sort_reverse_stable playtime 0 games).
  split; [exact Hplayed|]. split; [exact Hunplayed|]. split.
  - unfold played_table. rewrite Hplayed.
    destruct (played_games games) as [|g l] eqn:E; [reflexivity|].
    destruct (sort_reverse playtime (g :: l)) as [|g' l'] eqn:E'; [|reflexivity].
    pose proof (Permutation_length (sort_reverse_perm playtime (g :: l))) as Hlen.
    rewrite E' in Hlen. discriminate.
  - unfold unplayed_table. now rewrite Hunplayed.
Qed.

Lemma partition_lengths (l : list game) :
  (List.length (played_games l) + List.length (unplayed_games l)
   + List.length (filter (fun g => (playtime g <? 0)%Z) l)
   = List.length l)%nat.
Proof.
  induction l as [|g l IH]; [reflexivity|].
  rewrite played_games_cons, unplayed_games_cons. cbn [filter].
  destruct (0 <? playtime g) eqn:E1, (playtime g =? 0) eqn:E2,
           (playtime g <? 0) eqn:E3; cbn [List.length];
    rewrite ?Z.ltb_lt, ?Z.ltb_ge, ?Z.eqb_eq, ?Z.eqb_neq in *; lia.
Qed.

(** X9: a game fetched with a negative playtime is in neither table:
    it is counted in the number of games and in the total time, but it
    is not a played game and not an unplayed one, so the two counts of
    the statistics block add up to less than the number of games. *)
Theorem negative_playtime_in_neither_table (games : list game) (g : game) :
  In g games ->
  playtime g < 0 ->
  let sorted := sort_reverse playtime games in
  In g sorted
  /\ ~ In g (played_games sorted)
  /\ ~ In g (unplayed_games sorted)
  /\ (List.length (played_games sorted) + List.length (unplayed_games sorted)
      < List.length sorted)%nat
  /\ List.length sorted = List.length games.
Proof.
  intros Hin Hneg sorted.
  pose proof (sort_reverse_perm playtime games) as Hperm. fold sorted in Hperm.
  assert (Hsorted : In g sorted)
    by (apply (Permutation_in _ (Permutation_sym Hperm)); exact Hin).
  split; [exact Hsorted|]. split; [|split; [|split]].
  - intros H. apply filter_In in H. destruct H as [_ H].
    apply Z.ltb_lt in H. lia.
  - intros H. apply filter_In in H. destruct H as [_ H].
    apply Z.eqb_eq in H. lia.
  - pose proof (partition_lengths sorted) as Hlen.
    assert (Hpos : (0 < List.length
                         (filter (fun g => (playtime g <? 0)%Z) sorted))%nat).
    { assert (Hg : In g (filter (fun g => playtime g <? 0) sorted))
        by (apply filter_In; split; [assumption|now apply Z.ltb_lt]).
      destruct (filter (fun g => playtime g <? 0) sorted);
        [destruct Hg|cbn; lia]. }
    lia.
  - now apply Permutation_length.
Qed.

(** X10: with no negative playtime the total is the total of the
    played games, so the average of the statistics block is the mean
    playtime of the played games (unplayed games weigh nothing in it). *)
Theorem total_is_total_of_played (games : list game) :
  Forall (fun g => 0 <= playtime g) games ->
  total_minutes games = total_minutes (played_games games)
  /\ avg_playtime (sort_reverse playtime games)
     = truediv (PyInt (total_minutes (played_games games)))
               (len (played_games games)).
Proof.
  intros Hpos.
  assert (Htotal : total_minutes games = total_minutes (played_games games)).
  { induction Hpos as [|g l Hg Hl IH]; [reflexivity|].
    rewrite played_games_cons, total_minutes_cons.
    destruct (0 <? playtime g) eqn:E.
    - rewrite total_minutes_cons. lia.
    - apply Z.ltb_ge in E. lia. }
  split; [exact Htotal|].
  unfold avg_playtime, len.
  rewrite (total_minutes_perm _ _ (sort_reverse_perm playtime games)).
  now rewrite length_played_sorted, Htotal.
Qed.

(** X11: the report depends on the order in which the games were
    fetched only through the order of the games of equal playtime: two
    lists that hold the same games of every playtime, in the same order,
    give the same report, line for line. *)
Theorem report_depends_on_order_of_ties_only
        (player_info : option player) (games games' : list game) :
  (forall minutes : Z,
     filter (fun g => playtime g =? minutes) games'
     = filter (fun g => playtime g =? minutes) games) ->
  sort_reverse playtime games' = sort_reverse playtime games
  /\ markdown_content player_info games' = markdown_content player_info games.
Proof.
  intros Hties.
  assert (Hsort : sort_reverse playtime games' = sort_reverse playtime games).
  { apply sort_reverse_unique.
    - apply sort_reverse_descending.
    - intros k. rewrite sort_reverse_stable. apply Hties. }
  split; [exact Hsort|].
  unfold markdown_content. now rewrite Hsort.
Qed.

(** ** Floats of whole value *)

(** Scaling both sides of a fraction leaves its rounding alone. *)
Lemma round_half_even_scale (n d c : Z) :
  0 < d -> 0 < c -> round_half_even (n * c) (d * c) = round_half_even n d.
Proof.
  intros Hd Hc. unfold round_half_even.
  rewrite Z.div_mul_cancel_r, Z.mul_mod_distr_r by lia.
  assert (E1 : (2 * (n mod d * c) <? d * c) = (2 * (n mod d) <? d)).
  { destruct (Z.ltb_spec (2 * (n mod d)) d);
      [apply Z.ltb_lt|apply Z.ltb_ge]; nia. }
  assert (E2 : (d * c <? 2 * (n mod d * c)) = (d <? 2 * (n mod d))).
  { destruct (Z.ltb_spec d (2 * (n mod d)));
      [apply Z.ltb_lt|apply Z.ltb_ge]; nia. }
  now rewrite E1, E2.
Qed.

Lemma log2_quot_scale (n d j : Z) :
  0 < n -> 0 < d -> 0 <= j -> log2_quot (n * 2 ^ j) (d * 2 ^ j) = log2_quot n d.
Proof.
  intros Hn Hd Hj. unfold log2_quot.
  rewrite !Z.log2_mul_pow2 by lia.
  replace (j + Z.log2 n - (j + Z.log2 d)) with (Z.log2 n - Z.log2 d) by lia.
  set (k := Z.log2 n - Z.log2 d).
  assert (Hp : 0 < 2 ^ j) by (apply Z.pow_pos_nonneg; lia).
  assert (Hx : 0 < 2 ^ Z.max 0 k) by (apply Z.pow_pos_nonneg; lia).
  assert (Hy : 0 < 2 ^ Z.max 0 (- k)) by (apply Z.pow_pos_nonneg; lia).
  assert (E : (d * 2 ^ j * 2 ^ Z.max 0 k <=? n * 2 ^ j * 2 ^ Z.max 0 (- k))
              = (d * 2 ^ Z.max 0 k <=? n * 2 ^ Z.max 0 (- k))).
  { destruct (Z.leb_spec (d * 2 ^ Z.max 0 k) (n * 2 ^ Z.max 0 (- k)));
      [apply Z.leb_le|apply Z.leb_gt]; nia. }
  now rewrite E.
Qed.

(** Dividing two numbers that were both scaled by a power of two gives
    the same float. *)
Lemma round_div_scale (a b j : Z) :
  0 < b -> 0 <= j -> round_div (a * 2 ^ j) (b * 2 ^ j) = round_div a b.
Proof.
  intros Hb Hj. unfold round_div.
  assert (Hp : 0 < 2 ^ j) by (apply Z.pow_pos_nonneg; lia).
  destruct (Z.eqb_spec a 0) as [->|Ha].
  - reflexivity.
  - assert (E : (a * 2 ^ j =? 0) = false) by (apply Z.eqb_neq; nia).
    rewrite E. cbv zeta.
    rewrite Z.abs_mul, (Z.abs_eq (2 ^ j)) by lia.
    rewrite log2_quot_scale by lia.
    set (s := 52 - log2_quot (Z.abs a) b).
    replace (Z.abs a * 2 ^ j * 2 ^ Z.max 0 s)
      with (Z.abs a * 2 ^ Z.max 0 s * 2 ^ j) by ring.
    replace (b * 2 ^ j * 2 ^ Z.max 0 (- s))
      with (b * 2 ^ Z.max 0 (- s) * 2 ^ j) by ring.
    assert (Hq : 0 < 2 ^ Z.max 0 (- s)) by (apply Z.pow_pos_nonneg; lia).
    rewrite round_half_even_scale by nia.
    rewrite Z.sgn_mul, (Z.sgn_pos (2 ^ j)) by lia.
    now rewrite Z.mul_1_r.
Qed.

(** The exponent [log2_quot] finds is not too large. *)
Lemma log2_quot_lower (n d : Z) :
  0 < n -> 0 < d -> 0 <= log2_quot n d -> d * 2 ^ log2_quot n d <= n.
Proof.
  intros Hn Hd. unfold log2_quot.
  set (k := Z.log2 n - Z.log2 d).
  pose proof (Z.log2_spec n Hn) as [Hn1 _].
  pose proof (Z.log2_spec d Hd) as [_ Hd2].
  pose proof (Z.log2_nonneg n) as Hln.
  pose proof (Z.log2_nonneg d) as Hld.
  destruct (Z.leb_spec (d * 2 ^ Z.max 0 k) (n * 2 ^ Z.max 0 (- k))) as [L|L];
    intros Hk.
  - rewrite Z.max_r in L by lia. rewrite Z.max_l in L by lia.
    change (2 ^ 0) with 1 in L. lia.
  - assert (E : 2 ^ Z.succ (Z.log2 d) * 2 ^ (k - 1) = 2 ^ Z.log2 n).
    { rewrite <- Z.pow_add_r by lia. f_equal. subst k. lia. }
    assert (Hp : 0 < 2 ^ (k - 1)) by (apply Z.pow_pos_nonneg; lia).
    nia.
Qed.

(** A quotient that comes out whole, and is below [2^53] in size, is
    the float of that whole number. *)
Lemma round_div_exact (q n : Z) :
  0 < n -> q <> 0 -> Z.abs q < 2 ^ 53 ->
  exists s, 0 <= s /\ round_div (q * n) n = mkFloat (q * 2 ^ s) (- s).
Proof.
  intros Hn Hq Hsmall.
  exists (52 - log2_quot (Z.abs q * n) n).
  set (k := log2_quot (Z.abs q * n) n).
  assert (Hk : k <= 52).
  { destruct (Z_lt_le_dec k 53) as [|Hbig]; [lia|exfalso].
    pose proof (log2_quot_lower (Z.abs q * n) n ltac:(nia) Hn
                  ltac:(fold k; lia)) as Hlow.
    fold k in Hlow.
    assert (Hpow : 2 ^ 53 <= 2 ^ k) by (apply Z.pow_le_mono_r; lia).
    nia. }
  split; [lia|].
  unfold round_div.
  assert (E : (q * n =? 0) = false) by (apply Z.eqb_neq; nia).
  rewrite E. cbv zeta. rewrite Z.abs_mul, (Z.abs_eq n) by lia. fold k.
  rewrite (Z.max_r 0 (52 - k)), (Z.max_l 0 (- (52 - k))) by lia.
  change (2 ^ 0) with 1. rewrite Z.mul_1_r.
  assert (Hp : 0 < 2 ^ (52 - k)) by (apply Z.pow_pos_nonneg; lia).
  assert (R : round_half_even (Z.abs q * n * 2 ^ (52 - k)) n
              = Z.abs q * 2 ^ (52 - k)).
  { unfold round_half_even.
    replace (Z.abs q * n * 2 ^ (52 - k))
      with (Z.abs q * 2 ^ (52 - k) * n) by ring.
    rewrite Z.div_mul, Z.mod_mul by lia.
    assert (L : (2 * 0 <? n) = true) by (apply Z.ltb_lt; lia).
    now rewrite L. }
  rewrite R, Z.sgn_mul, (Z.sgn_pos n) by lia.
  f_equal. rewrite Z.mul_1_r.
  rewrite Z.mul_assoc, (Z.mul_comm (Z.sgn q)), Z.abs_sgn. reflexivity.
Qed.

Lemma fden_pos (x : float) : 0 < fden x.
Proof. unfold fden. apply Z.pow_pos_nonneg; lia. Qed.

Lemma den_pos (v : number) : 0 < den v.
Proof. destruct v; cbn [den]; [lia|apply fden_pos]. Qed.

(** A negative number divided by a positive one is a float below 1. *)
Lemma round_div_negative (a b : Z) :
  a < 0 -> 0 < b -> lt_int (PyFloat (round_div a b)) 1 = true.
Proof.
  intros Ha Hb. unfold lt_int. cbn [num den]. apply Z.ltb_lt.
  pose proof (fden_pos (round_div a b)) as Hden.
  enough (fnum (round_div a b) <= 0) by lia.
  unfold round_div.
  assert (E : (a =? 0) = false) by (apply Z.eqb_neq; lia).
  rewrite E. cbv zeta. unfold fnum. cbn [mant expo].
  set (s := 52 - log2_quot (Z.abs a) b).
  assert (Hx : 0 < 2 ^ Z.max 0 s) by (apply Z.pow_pos_nonneg; lia).
  assert (Hy : 0 < 2 ^ Z.max 0 (- s)) by (apply Z.pow_pos_nonneg; lia).
  assert (Hz : 0 < 2 ^ Z.max 0 (- - s)) by (apply Z.pow_pos_nonneg; lia).
  pose proof (round_half_even_bound (Z.abs a * 2 ^ Z.max 0 s)
                (b * 2 ^ Z.max 0 (- s)) ltac:(nia) ltac:(nia)) as [Hfloor _].
  assert (0 <= Z.abs a * 2 ^ Z.max 0 s / (b * 2 ^ Z.max 0 (- s)))
    by (apply Z.div_pos; nia).
  rewrite (Z.sgn_neg a) by lia. nia.
Qed.

(** X12: a negative number of minutes, an int or a float, that is
    not below [- 2 ^ 1023], so that [minutes / 60] is within the range
    of a float and no [OverflowError] is raised, is printed as it is,
    with the minutes label. *)
Theorem minutes_to_hours_negative (minutes : number) :
  - 2 ^ 1023 * den minutes <= num minutes < 0 ->
  minutes_to_hours minutes = str minutes +++ " 分鐘".
Proof.
  intros [_ Hneg]. unfold minutes_to_hours.
  pose proof (den_pos minutes) as Hden.
  assert (E : eq_int minutes 0 = false)
    by (unfold eq_int; apply Z.eqb_neq; lia).
  rewrite E. unfold truediv.
  now rewrite round_div_negative by nia.
Qed.

(** A float of whole value divides by 60 like the int of that value. *)
Lemma truediv_whole_float (x : float) (v : Z) :
  fnum x = v * fden x ->
  truediv (PyFloat x) 60 = truediv (PyInt v) 60.
Proof.
  intros Hv. unfold truediv. cbn [num den]. rewrite Hv.
  unfold fden. rewrite (Z.mul_comm (2 ^ _) 60), Z.mul_1_l.
  apply round_div_scale; lia.
Qed.

Lemma under_an_hour_is_below_one (m : Z) :
  0 < m < 60 -> lt_int (PyFloat (truediv (PyInt m) 60)) 1 = true.
Proof.
  intros Hm.
  assert (Hall : forallb (fun i => lt_int (PyFloat (truediv (PyInt i) 60)) 1)
                         (map Z.of_nat (seq 1 59)) = true)
    by (vm_compute; reflexivity).
  rewrite forallb_forall in Hall. apply Hall.
  rewrite <- (Z2Nat.id m) by lia. apply in_map, in_seq. lia.
Qed.

Lemma minutes_to_hours_whole_float (x : float) (v : Z) :
  fnum x = v * fden x ->
  (v = 0 -> minutes_to_hours (PyFloat x) = "0 小時")
  /\ (v < 60 -> v <> 0 ->
      minutes_to_hours (PyFloat x) = float_str x +++ " 分鐘")
  /\ (60 <= v < 60 * 2 ^ 48 ->
      minutes_to_hours (PyFloat x) = minutes_to_hours (PyInt v)).
Proof.
  intros Hv. pose proof (fden_pos x) as Hden.
  pose proof (truediv_whole_float x v Hv) as Hhours.
  split; [|split].
  - intros ->. unfold minutes_to_hours, eq_int. cbn [num den].
    rewrite Hv. reflexivity.
  - intros Hlt Hnz. unfold minutes_to_hours.
    assert (E : eq_int (PyFloat x) 0 = false)
      by (unfold eq_int; cbn [num den]; apply Z.eqb_neq; nia).
    rewrite E, Hhours.
    assert (L : lt_int (PyFloat (truediv (PyInt v) 60)) 1 = true).
    { destruct (Z_lt_le_dec v 0) as [Hneg|Hpos].
      - unfold truediv. cbn [num den]. apply round_div_negative; lia.
      - apply under_an_hour_is_below_one. lia. }
    now rewrite L.
  - intros Hrange. unfold minutes_to_hours.
    assert (E : eq_int (PyFloat x) 0 = false)
      by (unfold eq_int; cbn [num den]; apply Z.eqb_neq; nia).
    assert (E' : eq_int (PyInt v) 0 = false)
      by (unfold eq_int; cbn [num den]; apply Z.eqb_neq; lia).
    rewrite E, E', Hhours.
    destruct (truediv_60 v Hrange) as [s [q [Hs [Hq [Hge _]]]]].
    assert (L : lt_int (PyFloat (truediv (PyInt v) 60)) 1 = false).
    { unfold lt_int. cbn [num den]. rewrite Hq, fnum_scaled, fden_scaled by lia.
      apply Z.ltb_ge. lia. }
    now rewrite L.
Qed.

(** X13: [minutes_to_hours] on a float of whole value, as the average
    can be: 0 prints as 0 hours; from an hour on the float prints like
    the int of the same value; under an hour the float itself is
    printed, through [str], before the minutes label. *)
Theorem minutes_to_hours_of_whole_float (x : float) (v : Z) :
  fnum x = v * fden x ->
  (v = 0 -> minutes_to_hours (PyFloat x) = "0 小時")
  /\ (v < 60 -> v <> 0 ->
      minutes_to_hours (PyFloat x) = float_str x +++ " 分鐘")
  /\ (60 <= v < 60 * 2 ^ 48 ->
      minutes_to_hours (PyFloat x) = minutes_to_hours (PyInt v)).
Proof. apply minutes_to_hours_whole_float. Qed.

(** X14: when the total is a whole multiple [q] of the number of
    played games ([q] below [2^53] in size), the average is the float
    of value [q] exactly, and the average line shows what
    [minutes_to_hours] shows for [q] minutes from an hour on, and the
    float before the minutes label under an hour. *)
Theorem average_of_whole_minutes (games : list game) (q : Z) :
  played_games games <> [] ->
  total_minutes games = q * len (played_games games) ->
  Z.abs q < 2 ^ 53 ->
  fnum (avg_playtime games) = q * fden (avg_playtime games)
  /\ (60 <= q ->
      average_lines games
      = [ "- **平均遊戲時間**: " +++ minutes_to_hours (PyInt q) ])
  /\ (0 < q < 60 ->
      average_lines games
      = [ "- **平均遊戲時間**: "
            +++ float_str (avg_playtime games) +++ " 分鐘" ]).
Proof.
  intros Hplayed Htotal Hsmall.
  assert (Hn : 0 < len (played_games games)).
  { unfold len. destruct (played_games games); [now destruct Hplayed|].
    cbn [List.length]. lia. }
  assert (Hvalue : fnum (avg_playtime games) = q * fden (avg_playtime games)).
  { unfold avg_playtime, truediv. cbn [num den]. rewrite Htotal, Z.mul_1_l.
    destruct (Z.eq_dec q 0) as [->|Hq]; [reflexivity|].
    destruct (round_div_exact q (len (played_games games)) Hn Hq Hsmall)
      as [s [Hs ->]].
    rewrite fnum_scaled, fden_scaled by lia. reflexivity. }
  destruct (minutes_to_hours_whole_float (avg_playtime games) q Hvalue)
    as [_ [Hunder Hover]].
  split; [exact Hvalue|].
  unfold average_lines.
  destruct (played_games games) as [|g l]; [now destruct Hplayed|].
  split.
  - intros Hq. rewrite Hover; [reflexivity|].
    split; [lia|]. change (2 ^ 53) with 9007199254740992 in Hsmall.
    change (2 ^ 48) with 281474976710656. lia.
  - intros Hq. rewrite Hunder by lia. reflexivity.
Qed.

(** ** The run as [main] sees it *)

Lemma generate_markdown_report_requests (output_file : string) (t : list event) :
  (requests_made (snd (generate_markdown_report output_file t))
   <= requests_made t + 6)%nat.
Proof.
  rewrite generate_markdown_report_run. cbv zeta.
  set (t0 := t ++ _).
  assert (R0 : requests_made t0 = requests_made t)
    by (subst t0; count_requests; reflexivity).
  pose proof (continues_requests _ _ _ (get_owned_games_from_continues [0; 1; 2] t0))
    as R1.
  fold get_owned_games in R1. cbn [List.length] in R1.
  assert (Rd : requests_made (map Printed diagnostics) = 0%nat) by reflexivity.
  destruct (fst (get_owned_games t0)) as [[|g l]|].
  - cbn [snd]. rewrite requests_made_app, Rd. lia.
  - rewrite write_report_run. cbv zeta. cbn [snd].
    set (t2 := snd (get_owned_games t0) ++ _).
    assert (R2 : requests_made t2 = requests_made (snd (get_owned_games t0)))
      by (subst t2; count_requests; reflexivity).
    pose proof (continues_requests _ _ _
                  (get_player_summary_from_continues [0; 1; 2] t2)) as R3.
    fold get_player_summary in R3. cbn [List.length] in R3.
    rewrite requests_made_app.
    destruct (write_error output_file);
      cbn [requests_made filter is_request List.length]; lia.
  - cbn [snd]. rewrite requests_made_app, Rd. lia.
Qed.

Lemma generate_markdown_report_writes (output_file : string) (t : list event) :
  filter is_write (snd (generate_markdown_report output_file t))
  = filter is_write t
  \/ exists text,
       filter is_write (snd (generate_markdown_report output_file t))
       = filter is_write t ++ [ Wrote output_file text ].
Proof.
  rewrite generate_markdown_report_run. cbv zeta.
  set (t0 := t ++ _).
  assert (W0 : filter is_write t0 = filter is_write t)
    by (subst t0; rewrite writes_app; cbn; apply app_nil_r).
  pose proof (continues_writes _ _ _ (get_owned_games_from_continues [0; 1; 2] t0))
    as W1.
  fold get_owned_games in W1.
  assert (Wd : filter is_write (map Printed diagnostics) = []) by reflexivity.
  destruct (fst (get_owned_games t0)) as [[|g l]|].
  - left. cbn [snd]. now rewrite writes_app, Wd, app_nil_r, W1, W0.
  - rewrite write_report_run. cbv zeta. cbn [snd].
    set (t2 := snd (get_owned_games t0) ++ _).
    assert (W2 : filter is_write t2 = filter is_write t)
      by (subst t2; rewrite writes_app, W1, W0; cbn; apply app_nil_r).
    pose proof (continues_writes _ _ _
                  (get_player_summary_from_continues [0; 1; 2] t2)) as W3.
    fold get_player_summary in W3.
    rewrite writes_app, W3, W2.
    destruct (write_error output_file).
    + left. cbn. apply app_nil_r.
    + right. eexists. cbn [filter is_write]. reflexivity.
  - left. cbn [snd]. now rewrite writes_app, Wd, app_nil_r, W1, W0.
Qed.

End Scanner.

(* ================================================================= *)
(** * The properties on sample runs *)

(** C1 as first stated fails on the two-game scenario: one game of the
    two has been played, and the ranking has one entry, not
    [min(10, 2)]. *)
Lemma ranking_leaves_unplayed_games_out :
  let games := [game_A; game_B] in
  let entries :=
    ranking_entries sample_float_str (top_games (sort_reverse playtime games)) in
  Exists (fun g => playtime g <> 0) games
  /\ entries = [ "1. **A** - 2 小時" ]
  /\ Nat.min 10 (List.length games) = 2%nat
  /\ List.length entries <> Nat.min 10 (List.length games).
Proof.
  cbv zeta. split; [|split; [|split]].
  - constructor. discriminate.
  - vm_compute. reflexivity.
  - reflexivity.
  - vm_compute. discriminate.
Qed.

(** C2 on a server that answers 429 three times: the third wait is
    served, the loop runs out, and [get_owned_games] returns [None],
    not the empty list, after three requests and without the closing
    failure message. *)
Theorem get_owned_games_rate_limited_thrice
        (api_key steam_id : string) (t : list event) :
  let run := get_owned_games network_rate_limited api_key steam_id t in
  fst run = None
  /\ fst run <> Some []
  /\ requests_made (snd run) = (requests_made t + 3)%nat
  /\ last (snd run) (Printed "") = Slept 180
  /\ fst (get_owned_games network_down api_key steam_id t) = Some [].
Proof.
  cbv zeta. split; [|split; [|split; [|split]]].
  - unfold get_owned_games.
    rewrite !get_owned_games_429 by reflexivity. reflexivity.
  - unfold get_owned_games.
    rewrite !get_owned_games_429 by reflexivity. discriminate.
  - apply get_owned_games_three_failures. intros i _. reflexivity.
  - unfold get_owned_games.
    rewrite !get_owned_games_429 by reflexivity.
    cbn [get_owned_games_from ret snd].
    match goal with
    | |- last (?X ++ [?a; ?b; ?c; ?d]) _ = _ =>
        change (X ++ [a; b; c; d]) with (X ++ ([a; b; c] ++ [d]));
        rewrite (app_assoc X [a; b; c] [d])
    end.
    apply last_last.
  - pose proof (get_owned_games_three_failures network_down api_key steam_id t)
      as H.
    destruct H as [H _]; [intros i _; reflexivity|]. exact H.
Qed.

(** C3 as first stated fails one minute past [60 * 2^48] minutes: the
    quotient by 60 rounds to the float [2^48], and the minute count,
    no multiple of 60, prints as whole hours without a decimal. *)
Lemma minutes_to_hours_beyond_float_precision :
  let m := 60 * 2 ^ 48 + 1 in
  let text := minutes_to_hours sample_float_str (PyInt m) in
  60 <= m
  /\ m mod 60 = 1
  /\ text = "281474976710656 小時"
  /\ text = str_int (2 ^ 48) +++ " 小時"
  /\ String.index 0 "." text = None.
Proof.
  cbv zeta. split; [|split; [|split; [|split]]].
  - vm_compute. discriminate.
  - reflexivity.
  - vm_compute. reflexivity.
  - vm_compute. reflexivity.
  - vm_compute. reflexivity.
Qed.

(** [minutes_to_hours_labels] at 100 minutes: 1.7 hours. *)
Lemma minutes_to_hours_labels_at_100 :
  0 <= 100 < 60 * 2 ^ 48
  /\ exists tenths,
       minutes_to_hours sample_float_str (PyInt 100)
       = str_int (tenths / 10) +++ "." +++ str_int (tenths mod 10) +++ " 小時"
       /\ -3 <= 6 * tenths - 100 <= 3.
Proof.
  assert (H : 0 <= 100 < 60 * 2 ^ 48)
    by (vm_compute; split; [discriminate|reflexivity]).
  split; [exact H|].
  destruct (minutes_to_hours_labels sample_float_str 100 H)
    as [_ [_ [_ [Hdecimal _]]]].
  apply Hdecimal; vm_compute; discriminate.
Defined.

(** [played_unplayed_partition] on the two-game scenario. *)
Lemma played_unplayed_partition_scenario :
  Forall (fun g => 0 <= playtime g) [game_A; game_B]
  /\ played_games (sort_reverse playtime [game_A; game_B])
     ++ unplayed_games (sort_reverse playtime [game_A; game_B])
     = sort_reverse playtime [game_A; game_B].
Proof.
  assert (H : Forall (fun g => 0 <= playtime g) [game_A; game_B])
    by (repeat constructor; vm_compute; discriminate).
  split; [exact H|].
  apply (played_unplayed_partition [game_A; game_B] H).
Defined.



(** [no_games_returns_early] on an account that owns no game. *)
Lemma empty_library_writes_no_file :
  generate_markdown_report network_empty_library sample_now sample_write_error
    sample_float_str sample_api_key sample_steam_id "steam_games_report.md" []
  = (tt,
     snd (get_owned_games network_empty_library sample_api_key sample_steam_id
            ([] ++ banner))
     ++ map Printed diagnostics).
Proof.
  apply (no_games_returns_early
           network_empty_library sample_now sample_write_error
           sample_float_str sample_api_key sample_steam_id
           "steam_games_report.md" []).
  right. vm_compute. reflexivity.
Defined.

(** [missing_playtime_counts_as_zero] on a library where C has no
    playtime: C is unplayed. *)
Lemma game_without_playtime_is_unplayed :
  In game_C (unplayed_games (sort_reverse playtime [game_A; game_C])).
Proof.
  apply (missing_playtime_counts_as_zero
           sample_now sample_float_str sample_steam_id None
           [game_A; game_C] game_C eq_refl).
  right. left. reflexivity.
Defined.

(** [get_player_summary_exhausted] on a server that answers 429 to
    everything. *)
Lemma rate_limited_player_summary_is_absent :
  fst (get_player_summary network_rate_limited sample_api_key sample_steam_id [])
  = None.
Proof.
  apply (get_player_summary_exhausted
           network_rate_limited sample_api_key sample_steam_id []).
  intros i _. reflexivity.
Defined.

(** [get_owned_games_exhausted] on a connection that always times
    out. *)
Lemma unreachable_server_gives_empty_list :
  fst (get_owned_games network_down sample_api_key sample_steam_id []) = Some [].
Proof.
  destruct (get_owned_games_exhausted
              network_down sample_api_key sample_steam_id []
              (fun i _ => eq_refl))
    as [_ [Hexception _]].
  apply (Hexception "timed out"). reflexivity.
Defined.

(* ================================================================= *)
(** * main *)

(** What [main] itself does at the console, oldest first: a line
    printed, or a call of [input] with the line it read ([None] when
    the input is at its end and [input] raises [EOFError]). *)
Inductive console_event : Type :=
| Shown (line : string)
| Asked (prompt : string) (answer : option string).

(** How [main] ends: it returns at the guard on empty input; [input]
    raises [EOFError], which nothing catches; or it builds the scanner
    and runs [generate_markdown_report], whose trace, started empty,
    follows the console events of [main]. *)
Inductive main_result : Type :=
| Refused (console : list console_event)
| EndOfInput (console : list console_event)
| Scanned (console : list console_event)
          (api_key steam_id output_file : string) (run : list event).

Section Main.

(** The world of [main]: that of the scanner, the lines typed at the
    console (the n-th call of [input] reads [stdin n]), and Python's
    [str.strip]. *)
Variable network : nat -> http_result.
Variable now : string.
Variable write_error : string -> option string.
Variable float_str : float -> string.
Variable stdin : nat -> option string.
Variable strip : string -> string.

Definition opening : list console_event :=
  [ Shown "=== Steam 遊戲庫掃描器 ===";
    Shown "";
    Shown "請先準備以下資訊:";
    Shown "1. Steam Web API Key (從 https://steamcommunity.com/dev/apikey 獲取)";
    Shown "2. 你的 Steam ID (可以從 https://steamid.io/ 查詢)";
    Shown "" ].

(** [not s] for a string. *)
Definition empty (s : string) : bool :=
  match s with EmptyString => true | String _ _ => false end.

Definition main : main_result :=
  let ask_key := Asked "請輸入你的 Steam API Key: " (stdin 0) in
  let ask_id := Asked "請輸入你的 Steam ID: " (stdin 1) in
  let ask_file :=
    Asked "請輸入輸出檔案名稱 (預設: steam_games_report.md): " (stdin 2) in
  match stdin 0 with
  | None => EndOfInput (opening ++ [ask_key])
  | Some line0 =>
      let api_key := strip line0 in
      match stdin 1 with
      | None => EndOfInput (opening ++ [ask_key; ask_id])
      | Some line1 =>
          let steam_id := strip line1 in
          if empty api_key || empty steam_id then
            Refused (opening ++ [ask_key; ask_id;
                                 Shown "❌ API Key 和 Steam ID 都不能為空"])
          else
            match stdin 2 with
            | None => EndOfInput (opening ++ [ask_key; ask_id; ask_file])
            | Some line2 =>
                let output_file := strip line2 in
                let output_file :=
                  if empty output_file then "steam_games_report.md"
                  else output_file in
                Scanned (opening ++ [ask_key; ask_id; ask_file])
                        api_key steam_id output_file
                        (snd (generate_markdown_report
                                network now write_error float_str
                                api_key steam_id output_file []))
            end
      end
  end.

(** Number of calls of [input] in a console history. *)
Definition asked (c : list console_event) : nat :=
  List.length (filter (fun e => match e with Asked _ _ => true | _ => false end) c).

(** X15: [main] builds the scanner only after it has read a non-empty
    API key and a non-empty Steam ID.  When either is empty after
    [strip] it prints the error and returns: the output file is not
    asked for, and no request is made and no file written, as the
    scanner never runs. *)
Theorem main_refuses_empty_credentials (line0 line1 : string) :
  stdin 0%nat = Some line0 ->
  stdin 1%nat = Some line1 ->
  (strip line0 = "" \/ strip line1 = "" <->
   exists console,
     main = Refused console
     /\ asked console = 2%nat
     /\ last console (Shown "") = Shown "❌ API Key 和 Steam ID 都不能為空")
  /\ (strip line0 <> "" /\ strip line1 <> "" <->
      (exists console, main = EndOfInput console)
      \/ exists console output_file run,
           main = Scanned console (strip line0) (strip line1) output_file run).
Proof.
  intros H0 H1. unfold main. rewrite H0, H1. cbv zeta.
  destruct (strip line0) as [|c0 s0], (strip line1) as [|c1 s1];
    cbn [empty orb].
  - split; split.
    + intros _. eexists. split; [reflexivity|]. split; reflexivity.
    + intros _. now left.
    + intros [H _]. now destruct H.
    + intros [[c H]|[c [f [r H]]]]; discriminate.
  - split; split.
    + intros _. eexists. split; [reflexivity|]. split; reflexivity.
    + intros _. now left.
    + intros [H _]. now destruct H.
    + intros [[c H]|[c [f [r H]]]]; discriminate.
  - split; split.
    + intros _. eexists. split; [reflexivity|]. split; reflexivity.
    + intros _. now right.
    + intros [_ H]. now destruct H.
    + intros [[c H]|[c [f [r H]]]]; discriminate.
  - split; split.
    + intros [H|H]; discriminate.
    + intros [c [H _]]. destruct (stdin 2%nat); discriminate.
    + intros _. destruct (stdin 2%nat) as [line2|].
      * right. eexists. eexists. eexists. reflexivity.
      * left. eexists. reflexivity.
    + intros _. split; discriminate.
Qed.

(** X16: when [main] runs the scanner the report has a name: the third
    line typed, stripped, or [steam_games_report.md] when that is
    empty; the run makes six requests at most and writes one file at
    most, of that name. *)
Theorem main_names_the_report
        (console : list console_event)
        (api_key steam_id output_file : string) (run : list event) :
  main = Scanned console api_key steam_id output_file run ->
  output_file <> ""
  /\ (exists line2,
        stdin 2%nat = Some line2
        /\ output_file
           = if empty (strip line2) then "steam_games_report.md"
             else strip line2)
  /\ asked console = 3%nat
  /\ run = snd (generate_markdown_report network now write_error float_str
                  api_key steam_id output_file [])
  /\ (requests_made run <= 6)%nat
  /\ (filter is_write run = []
      \/ exists text, filter is_write run = [ Wrote output_file text ]).
Proof.
  unfold main.
  destruct (stdin 0%nat) as [line0|]; [|discriminate].
  destruct (stdin 1%nat) as [line1|]; [|discriminate]. cbv zeta.
  destruct (empty (strip line0) || empty (strip line1)); [discriminate|].
  destruct (stdin 2%nat) as [line2|]; [|discriminate].
  intros H. injection H as <- <- <- <- <-.
  set (output_file := if empty (strip line2) then "steam_games_report.md"
                      else strip line2).
  set (key := strip line0). set (id := strip line1).
  split; [|split; [|split; [|split; [|split]]]].
  - subst output_file. destruct (strip line2); discriminate.
  - exists line2. split; reflexivity.
  - reflexivity.
  - reflexivity.
  - apply (generate_markdown_report_requests network now write_error
             float_str key id output_file []).
  - apply (generate_markdown_report_writes network now write_error
             float_str key id output_file []).
Qed.

End Main.

(* ================================================================= *)
(** * Further sample runs *)

(** A game fetched with a negative playtime. *)
Definition game_N : game := mkGame (Some 40) (Some "N") (Some (-5)).

(** A stand-in for [str.strip] that takes blanks off both ends. *)
Fixpoint lstrip_blanks (s : string) : string :=
  match s with
  | String " " s' => lstrip_blanks s'
  | _ => s
  end.

Definition reverse (s : string) : string :=
  string_of_list_ascii (rev (list_ascii_of_string s)).

Definition sample_strip (s : string) : string :=
  reverse (lstrip_blanks (reverse (lstrip_blanks s))).

(** Two console sessions: a blank API key; a key, an id and an empty
    line for the file name. *)
Definition stdin_blank_key : nat -> option string :=
  fun n =>
    match n with
    | O => Some "   "
    | S O => Some sample_steam_id
    | _ => None
    end.

Definition stdin_default_file : nat -> option string :=
  fun n =>
    match n with
    | O => Some (" " +++ sample_api_key)
    | S O => Some sample_steam_id
    | S (S O) => Some ""
    | _ => None
    end.

(** [negative_playtime_in_neither_table] on a library with N. *)
Lemma negative_game_is_dropped_from_the_tables :
  ~ In game_N (played_games (sort_reverse playtime [game_A; game_N; game_B]))
  /\ ~ In game_N (unplayed_games (sort_reverse playtime [game_A; game_N; game_B])).
Proof.
  destruct (negative_playtime_in_neither_table [game_A; game_N; game_B] game_N)
    as [_ [Hplayed [Hunplayed _]]].
  - right. left. reflexivity.
  - reflexivity.
  - split; assumption.
Defined.

(** [total_is_total_of_played] on the two-game scenario. *)
Lemma scenario_total_is_total_of_played :
  total_minutes [game_A; game_B] = total_minutes (played_games [game_A; game_B]).
Proof.
  apply (total_is_total_of_played [game_A; game_B]).
  repeat constructor; vm_compute; discriminate.
Defined.

(** [report_depends_on_order_of_ties_only]: B fetched before A. *)
Lemma scenario_report_whatever_comes_first :
  markdown_content sample_now sample_float_str sample_steam_id None
    [game_B; game_A]
  = markdown_content sample_now sample_float_str sample_steam_id None
      [game_A; game_B].
Proof.
  apply (report_depends_on_order_of_ties_only
           sample_now sample_float_str sample_steam_id None
           [game_A; game_B] [game_B; game_A]).
  intros minutes. cbn [filter].
  change (playtime game_A) with 120. change (playtime game_B) with 0.
  destruct (Z.eqb_spec 0 minutes) as [<-|H0]; [reflexivity|].
  destruct (120 =? minutes); reflexivity.
Defined.

(** [minutes_to_hours_negative] on minus five minutes. *)
Lemma minus_five_minutes :
  minutes_to_hours sample_float_str (PyInt (-5)) = "-5 分鐘".
Proof.
  apply (minutes_to_hours_negative sample_float_str (PyInt (-5))).
  vm_compute. split; [discriminate|reflexivity].
Defined.

(** [minutes_to_hours_of_whole_float] on the float 120.0. *)
Lemma float_120_prints_as_two_hours :
  minutes_to_hours sample_float_str (PyFloat (mkFloat 120 0)) = "2 小時".
Proof.
  destruct (minutes_to_hours_of_whole_float sample_float_str (mkFloat 120 0) 120
              eq_refl) as [_ [_ Hover]].
  rewrite Hover; [reflexivity|].
  vm_compute. split; [discriminate|reflexivity].
Defined.

(** [average_of_whole_minutes] on the two-game scenario. *)
Lemma scenario_average_is_two_hours :
  average_lines sample_float_str [game_A; game_B]
  = [ "- **平均遊戲時間**: 2 小時" ].
Proof.
  destruct (average_of_whole_minutes sample_float_str [game_A; game_B] 120)
    as [_ [Hover _]].
  - discriminate.
  - reflexivity.
  - reflexivity.
  - rewrite Hover; [reflexivity|]. discriminate.
Defined.

(** [main_refuses_empty_credentials] on a blank API key. *)
Lemma blank_key_is_refused :
  exists console,
    main network_rate_limited sample_now sample_write_error sample_float_str
         stdin_blank_key sample_strip
    = Refused console
    /\ asked console = 2%nat
    /\ last console (Shown "") = Shown "❌ API Key 和 Steam ID 都不能為空".
Proof.
  apply (main_refuses_empty_credentials
           network_rate_limited sample_now sample_write_error sample_float_str
           stdin_blank_key sample_strip "   " sample_steam_id eq_refl eq_refl).
  left. reflexivity.
Defined.

(** [main_names_the_report] on an empty line for the file name. *)
Lemma empty_file_name_is_the_default :
  exists console run,
    main network_empty_player sample_now sample_write_error sample_float_str
         stdin_default_file sample_strip
    = Scanned console sample_api_key sample_steam_id "steam_games_report.md" run
    /\ (requests_made run <= 6)%nat.
Proof.
  eexists. eexists. split; [reflexivity|].
  apply (main_names_the_report
           network_empty_player sample_now sample_write_error sample_float_str
           stdin_default_file sample_strip _ sample_api_key sample_steam_id
           "steam_games_report.md" _ eq_refl).
Defined.

(* ================================================================= *)
(** * The fetch methods on bodies with null members *)

(** [json] stands for the decoded bodies of the shape the API
    documents: an object in which ['response'], when it is there, is an
    object, and in it ['games'] and ['players'], when they are there,
    are lists.  [response.json()] can hand back a body in which one of
    these members is [null].  The fetch methods test for a member with
    [in] before they read it, but neither [in] nor [len] applies to
    [None], and the [except] clause of the loop takes
    [requests.exceptions.RequestException] only: on such a body the
    method raises a [TypeError] that nothing in the program catches.

    This part embeds the two methods once more, over bodies whose
    members may be null and with the exception as an outcome, and shows
    the methods of the scanner above to be these ones on the bodies of
    the documented shape. *)

(** A member of a decoded JSON object. *)
Inductive member (A : Type) : Type :=
| Missing
    (* the key is not in the object *)
| Null
    (* the key is there, with the value null *)
| Value (a : A).

Arguments Missing {A}.
Arguments Null {A}.
Arguments Value {A} a.

Record raw_response_object : Type := mkRawResponse {
  raw_games_field : member (list game);
  raw_players_field : member (list player)
}.

Record raw_json : Type := mkRawJson {
  raw_response_field : member raw_response_object
}.

Inductive raw_http_result : Type :=
| RawStatus429
| RawRequestException (e : string)
| RawOk (data : raw_json).

(** The exception the fetch methods let through. *)
Inductive exception : Type := TypeError.

(** How a call ends: with a value, or with an exception on its way to
    the caller. *)
Inductive outcome (A : Type) : Type :=
| Returned (a : A)
| Raised (e : exception).

Arguments Returned {A} a.
Arguments Raised {A} e.

(** The bodies of the documented shape among all of them. *)
Definition member_of_option {A : Type} (o : option A) : member A :=
  match o with Some a => Value a | None => Missing end.

Definition raw_of_json (data : json) : raw_json :=
  mkRawJson
    match response_field data with
    | Some r =>
        Value (mkRawResponse (member_of_option (games_field r))
                             (member_of_option (players_field r)))
    | None => Missing
    end.

Definition raw_of_result (r : http_result) : raw_http_result :=
  match r with
  | Status429 => RawStatus429
  | RequestException e => RawRequestException e
  | Ok data => RawOk (raw_of_json data)
  end.

Section Bodies.

Set Default Proof Using "Type".

Variable raw_network : nat -> raw_http_result.
Variable api_key : string.
Variable steam_id : string.

Definition raw_requests_get (url : string) (params : dict)
  : M raw_http_result :=
  fun t => (raw_network (requests_made t), t ++ [Requested url params]).

(** ** get_owned_games *)

(** ['response' in data and 'games' in data['response']] raises when
    [data['response']] is [None]; when the test holds, the f-string of
    the next line takes [len(data['response']['games'])] and raises
    when that is [None], before anything is printed. *)
Fixpoint get_owned_games_raw_from (attempts : list Z)
  : M (outcome (option (list game))) :=
  let url := base_url +++ "/IPlayerService/GetOwnedGames/v0001/" in
  let params := [("key", api_key); ("steamid", steam_id); ("format", "json");
                 ("include_appinfo", "True");
                 ("include_played_free_games", "True")] in
  match attempts with
  | [] => ret (Returned None)
  | attempt :: rest =>
      print ("正在獲取遊戲列表... (嘗試 " +++ str_int (attempt + 1) +++ "/3)") ;;
      response <- raw_requests_get url params ;;
      match response with
      | RawStatus429 =>
          let wait_time := 60 * (attempt + 1) in
          print ("API請求過於頻繁，等待 " +++ str_int wait_time +++ " 秒後重試...") ;;
          time_sleep wait_time ;;
          get_owned_games_raw_from rest
      | RawOk data =>
          match raw_response_field data with
          | Missing =>
              print "無法獲取遊戲資料，請檢查API key和Steam ID是否正確" ;;
              ret (Returned (Some []))
          | Null => ret (Raised TypeError)
          | Value r =>
              match raw_games_field r with
              | Missing =>
                  print "無法獲取遊戲資料，請檢查API key和Steam ID是否正確" ;;
                  ret (Returned (Some []))
              | Null => ret (Raised TypeError)
              | Value games =>
                  print ("✅ 成功獲取 " +++ str_int (Z.of_nat (List.length games))
                           +++ " 個遊戲") ;;
                  ret (Returned (Some games))
              end
          end
      | RawRequestException e =>
          print ("API請求失敗 (嘗試 " +++ str_int (attempt + 1) +++ "/3): " +++ e) ;;
          if attempt <? 2 then
            let wait_time := 30 * (attempt + 1) in
            print ("等待 " +++ str_int wait_time +++ " 秒後重試...") ;;
            time_sleep wait_time ;;
            get_owned_games_raw_from rest
          else
            print "所有重試都失敗了" ;;
            ret (Returned (Some []))
      end
  end.

Definition get_owned_games_raw : M (outcome (option (list game))) :=
  get_owned_games_raw_from [0; 1; 2].

(** ** get_player_summary *)

(** ['response' in data and 'players' in data['response'] and
    len(data['response']['players']) > 0], from left to right. *)
Fixpoint get_player_summary_raw_from (attempts : list Z)
  : M (outcome (option player)) :=
  let url := base_url +++ "/ISteamUser/GetPlayerSummaries/v0002/" in
  let params := [("key", api_key); ("steamids", steam_id)] in
  match attempts with
  | [] => ret (Returned None)
  | attempt :: rest =>
      print ("正在獲取玩家資訊... (嘗試 " +++ str_int (attempt + 1) +++ "/3)") ;;
      (if 0 <? attempt then time_sleep 2 else ret tt) ;;
      response <- raw_requests_get url params ;;
      match response with
      | RawStatus429 =>
          let wait_time := 60 * (attempt + 1) in
          print ("API請求過於頻繁，等待 " +++ str_int wait_time +++ " 秒後重試...") ;;
          time_sleep wait_time ;;
          get_player_summary_raw_from rest
      | RawOk data =>
          match raw_response_field data with
          | Missing =>
              print "⚠️ 無法獲取玩家資訊，但會繼續處理遊戲列表" ;;
              ret (Returned None)
          | Null => ret (Raised TypeError)
          | Value r =>
              match raw_players_field r with
              | Missing | Value [] =>
                  print "⚠️ 無法獲取玩家資訊，但會繼續處理遊戲列表" ;;
                  ret (Returned None)
              | Null => ret (Raised TypeError)
              | Value (p :: _) =>
                  print "✅ 成功獲取玩家資訊" ;;
                  ret (Returned (Some p))
              end
          end
      | RawRequestException e =>
          print ("獲取玩家資訊失敗 (嘗試 " +++ str_int (attempt + 1) +++ "/3): " +++ e) ;;
          if attempt <? 2 then
            let wait_time := 30 * (attempt + 1) in
            print ("等待 " +++ str_int wait_time +++ " 秒後重試...") ;;
            time_sleep wait_time ;;
            get_player_summary_raw_from rest
          else
            print "⚠️ 無法獲取玩家資訊，但會繼續處理遊戲列表" ;;
            ret (Returned None)
      end
  end.

Definition get_player_summary_raw : M (outcome (option player)) :=
  get_player_summary_raw_from [0; 1; 2].

(** An attempt that did not get a decoded body back. *)
Definition raw_failed (r : raw_http_result) : bool :=
  match r with
  | RawOk _ => false
  | RawStatus429 | RawRequestException _ => true
  end.

(** The [n] requests from the one numbered [first] on all fail. *)
Definition raw_all_failed (first n : nat) : Prop :=
  forall i, (i < n)%nat -> raw_failed (raw_network (first + i)) = true.

(** What [get_owned_games] makes of a decoded body. *)
Definition owned_games_in (data : raw_json) : outcome (option (list game)) :=
  match raw_response_field data with
  | Missing => Returned (Some [])
  | Null => Raised TypeError
  | Value r =>
      match raw_games_field r with
      | Missing => Returned (Some [])
      | Null => Raised TypeError
      | Value games => Returned (Some games)
      end
  end.

(** What [get_player_summary] makes of a decoded body. *)
Definition player_in (data : raw_json) : outcome (option player) :=
  match raw_response_field data with
  | Missing => Returned None
  | Null => Raised TypeError
  | Value r =>
      match raw_players_field r with
      | Missing | Value [] => Returned None
      | Null => Raised TypeError
      | Value (p :: _) => Returned (Some p)
      end
  end.

(** What [get_owned_games] prints once it has looked into a decoded
    body: nothing when it raises. *)
Definition owned_games_message (data : raw_json) : list event :=
  match raw_response_field data with
  | Null | Value (mkRawResponse Null _) => []
  | Value (mkRawResponse (Value games) _) =>
      [ Printed ("✅ 成功獲取 " +++ str_int (Z.of_nat (List.length games))
                   +++ " 個遊戲") ]
  | Missing | Value (mkRawResponse Missing _) =>
      [ Printed "無法獲取遊戲資料，請檢查API key和Steam ID是否正確" ]
  end.

(* =============================================================== *)
(** ** Properties *)

(** One turn of the loop of [get_owned_games], on a decoded body. *)
Lemma get_owned_games_raw_from_body
      (attempt : Z) (rest : list Z) (t : list event) (data : raw_json) :
  raw_network (requests_made t) = RawOk data ->
  get_owned_games_raw_from (attempt :: rest) t
  = (owned_games_in data,
     t ++ [ Printed ("正在獲取遊戲列表... (嘗試 " +++ str_int (attempt + 1) +++ "/3)");
            Requested (base_url +++ "/IPlayerService/GetOwnedGames/v0001/")
              [("key", api_key); ("steamid", steam_id); ("format", "json");
               ("include_appinfo", "True");
               ("include_played_free_games", "True")] ]
       ++ owned_games_message data).
Proof.
  intros Hnet. cbn [get_owned_games_raw_from].
  unfold bind, print, time_sleep, emit, raw_requests_get, ret.
  rewrite requests_made_app. cbn [requests_made filter is_request List.length].
  rewrite Nat.add_0_r, Hnet.
  unfold owned_games_message, owned_games_in.
  destruct data as [[| |[[| |games] players]]];
    cbn [raw_response_field raw_games_field];
    rewrite <- ?app_assoc, ?app_nil_r; reflexivity.
Qed.

(** One turn of the loop of [get_player_summary], on a decoded body. *)
Lemma get_player_summary_raw_from_body
      (attempt : Z) (rest : list Z) (t : list event) (data : raw_json) :
  raw_network (requests_made t) = RawOk data ->
  let run := get_player_summary_raw_from (attempt :: rest) t in
  fst run = player_in data
  /\ requests_made (snd run) = S (requests_made t).
Proof.
  intros Hnet. cbv zeta. cbn [get_player_summary_raw_from].
  unfold bind, print, time_sleep, emit, raw_requests_get, ret.
  assert (Hreq : forall u, requests_made u = requests_made t ->
                 raw_network (requests_made u) = RawOk data)
    by (intros u ->; exact Hnet).
  unfold player_in.
  destruct (0 <? attempt);
    (rewrite Hreq
      by (rewrite ?requests_made_app;
          cbn [requests_made filter is_request List.length]; lia));
    destruct data as [[| |[games [| |[|p l]]]]];
    cbn [raw_response_field raw_players_field fst snd];
    rewrite ?requests_made_app;
    cbn [requests_made filter is_request List.length];
    (split; [reflexivity|lia]).
Qed.

(** A failed attempt that is not the last one hands over to the next
    attempt, one request later. *)
Lemma get_owned_games_raw_retry (attempt : Z) (rest : list Z) (t : list event) :
  attempt < 2 ->
  raw_failed (raw_network (requests_made t)) = true ->
  exists t', get_owned_games_raw_from (attempt :: rest) t
             = get_owned_games_raw_from rest t'
             /\ requests_made t' = S (requests_made t).
Proof.
  intros Hlt Hfail. apply Z.ltb_lt in Hlt. cbn [get_owned_games_raw_from].
  unfold bind, print, time_sleep, emit, raw_requests_get, ret.
  rewrite requests_made_app. cbn [requests_made filter is_request List.length].
  rewrite Nat.add_0_r.
  destruct (raw_network (requests_made t)) as [|e|data]; [| |discriminate];
    rewrite ?Hlt; (eexists; split; [reflexivity|]);
    rewrite ?requests_made_app;
    cbn [requests_made filter is_request List.length]; lia.
Qed.

Lemma get_player_summary_raw_retry
      (attempt : Z) (rest : list Z) (t : list event) :
  attempt < 2 ->
  raw_failed (raw_network (requests_made t)) = true ->
  exists t', get_player_summary_raw_from (attempt :: rest) t
             = get_player_summary_raw_from rest t'
             /\ requests_made t' = S (requests_made t).
Proof.
  intros Hlt Hfail. apply Z.ltb_lt in Hlt. cbn [get_player_summary_raw_from].
  unfold bind, print, time_sleep, emit, raw_requests_get, ret.
  assert (Hreq : forall u, requests_made u = requests_made t ->
                 raw_network (requests_made u) = raw_network (requests_made t))
    by (intros u ->; reflexivity).
  destruct (0 <? attempt);
    (rewrite Hreq
      by (rewrite ?requests_made_app;
          cbn [requests_made filter is_request List.length]; lia));
    (destruct (raw_network (requests_made t)) as [|e|data]; [| |discriminate]);
    rewrite ?Hlt; (eexists; split; [reflexivity|]);
    rewrite ?requests_made_app;
    cbn [requests_made filter is_request List.length]; lia.
Qed.

(** ** The first body decides *)

(** X4: [get_owned_games] retries failed attempts only.  The first
    decoded body, at the first, second or third attempt, ends the
    method and no request follows it: the method returns the games of
    the body, or the empty list when ['response'] or ['games'] is
    missing, and raises [TypeError] when ['response'] or ['games'] is
    null. *)
Theorem get_owned_games_first_body_decides
        (n : nat) (t : list event) (data : raw_json) :
  (n < 3)%nat ->
  raw_all_failed (requests_made t) n ->
  raw_network (requests_made t + n) = RawOk data ->
  fst (get_owned_games_raw t) = owned_games_in data
  /\ requests_made (snd (get_owned_games_raw t)) = (requests_made t + n + 1)%nat.
Proof.
  intros Hn Hall Hnet.
  assert (Hlast : forall a r t',
            requests_made t' = (requests_made t + n)%nat ->
            fst (get_owned_games_raw_from (a :: r) t') = owned_games_in data
            /\ requests_made (snd (get_owned_games_raw_from (a :: r) t'))
               = (requests_made t + n + 1)%nat).
  { intros a r t' Ht'.
    rewrite (get_owned_games_raw_from_body a r t' data)
      by (rewrite Ht'; exact Hnet).
    cbn [fst snd]. split; [reflexivity|].
    rewrite !requests_made_app. cbn [requests_made filter is_request List.length].
    assert (Hmsg : requests_made (owned_games_message data) = 0%nat).
    { unfold owned_games_message.
      destruct (raw_response_field data) as [| |[[| |l] players]];
        reflexivity. }
    unfold requests_made in Hmsg, Ht' |- *. rewrite Hmsg, Ht'. lia. }
  unfold get_owned_games_raw.
  destruct n as [|[|[|n]]]; try lia.
  - apply Hlast. lia.
  - pose proof (Hall 0%nat ltac:(lia)) as H0. rewrite Nat.add_0_r in H0.
    destruct (get_owned_games_raw_retry 0 [1; 2] t ltac:(lia) H0) as [t1 [-> R1]].
    apply Hlast. lia.
  - pose proof (Hall 0%nat ltac:(lia)) as H0. rewrite Nat.add_0_r in H0.
    pose proof (Hall 1%nat ltac:(lia)) as H1.
    destruct (get_owned_games_raw_retry 0 [1; 2] t ltac:(lia) H0) as [t1 [-> R1]].
    rewrite Nat.add_1_r, <- R1 in H1.
    destruct (get_owned_games_raw_retry 1 [2] t1 ltac:(lia) H1) as [t2 [-> R2]].
    apply Hlast. lia.
Qed.

(** X5: [get_player_summary] likewise stops at the first decoded body.
    It returns the first player of the list and ignores the others; it
    returns [None], without another attempt, when ['response'] or
    ['players'] is missing or the list is empty; and it raises
    [TypeError] when ['response'] or ['players'] is null. *)
Theorem get_player_summary_first_body_decides
        (n : nat) (t : list event) (data : raw_json) :
  (n < 3)%nat ->
  raw_all_failed (requests_made t) n ->
  raw_network (requests_made t + n) = RawOk data ->
  fst (get_player_summary_raw t) = player_in data
  /\ requests_made (snd (get_player_summary_raw t))
     = (requests_made t + n + 1)%nat.
Proof.
  intros Hn Hall Hnet.
  assert (Hlast : forall a r t',
            requests_made t' = (requests_made t + n)%nat ->
            fst (get_player_summary_raw_from (a :: r) t') = player_in data
            /\ requests_made (snd (get_player_summary_raw_from (a :: r) t'))
               = (requests_made t + n + 1)%nat).
  { intros a r t' Ht'.
    destruct (get_player_summary_raw_from_body a r t' data) as [Hfst Hreq];
      [rewrite Ht'; exact Hnet|].
    split; [exact Hfst|]. rewrite Hreq, Ht'. lia. }
  unfold get_player_summary_raw.
  destruct n as [|[|[|n]]]; try lia.
  - apply Hlast. lia.
  - pose proof (Hall 0%nat ltac:(lia)) as H0. rewrite Nat.add_0_r in H0.
    destruct (get_player_summary_raw_retry 0 [1; 2] t ltac:(lia) H0)
      as [t1 [-> R1]].
    apply Hlast. lia.
  - pose proof (Hall 0%nat ltac:(lia)) as H0. rewrite Nat.add_0_r in H0.
    pose proof (Hall 1%nat ltac:(lia)) as H1.
    destruct (get_player_summary_raw_retry 0 [1; 2] t ltac:(lia) H0)
      as [t1 [-> R1]].
    rewrite Nat.add_1_r, <- R1 in H1.
    destruct (get_player_summary_raw_retry 1 [2] t1 ltac:(lia) H1)
      as [t2 [-> R2]].
    apply Hlast. lia.
Qed.

End Bodies.

(** ** The scanner's methods are these, on the documented bodies *)

Lemma get_owned_games_raw_of_json
      (network : nat -> http_result) (api_key steam_id : string)
      (attempts : list Z) (t : list event) :
  get_owned_games_raw_from (fun n => raw_of_result (network n))
    api_key steam_id attempts t
  = (Returned (fst (get_owned_games_from network api_key steam_id attempts t)),
     snd (get_owned_games_from network api_key steam_id attempts t)).
Proof.
  revert t. induction attempts as [|attempt rest IH]; intros t; [reflexivity|].
  cbn [get_owned_games_raw_from get_owned_games_from].
  unfold bind, print, time_sleep, emit, raw_requests_get, requests_get, ret.
  destruct (network _) as [|e|data]; cbn [raw_of_result].
  - apply IH.
  - destruct (attempt <? 2); [apply IH|reflexivity].
  - destruct data as [[[[games|] players]|]]; reflexivity.
Qed.

Lemma get_player_summary_raw_of_json
      (network : nat -> http_result) (api_key steam_id : string)
      (attempts : list Z) (t : list event) :
  get_player_summary_raw_from (fun n => raw_of_result (network n))
    api_key steam_id attempts t
  = (Returned (fst (get_player_summary_from network api_key steam_id attempts t)),
     snd (get_player_summary_from network api_key steam_id attempts t)).
Proof.
  revert t. induction attempts as [|attempt rest IH]; intros t; [reflexivity|].
  cbn [get_player_summary_raw_from get_player_summary_from].
  unfold bind, print, time_sleep, emit, raw_requests_get, requests_get, ret.
  destruct (0 <? attempt);
    (destruct (network _) as [|e|data]; cbn [raw_of_result];
     [ apply IH
     | destruct (attempt <? 2); [apply IH|reflexivity]
     | destruct data as [[[games [[|p l]|]]|]]; reflexivity ]).
Qed.

(** ** Sample bodies *)

(** The body [{"response": null}], whatever is asked; a private
    profile, [{"response": {}}]; a body without ['response'], [{}]. *)
Definition network_null_response : nat -> raw_http_result :=
  fun _ => RawOk (mkRawJson Null).

Definition network_private_profile : nat -> raw_http_result :=
  fun _ => RawOk (mkRawJson (Value (mkRawResponse Missing Missing))).

Definition network_empty_object : nat -> raw_http_result :=
  fun _ => RawOk (mkRawJson Missing).

(** A server that is busy once and then sends the two games; one that
    sends [{"response": {"players": null}}]. *)
Definition network_busy_once : nat -> raw_http_result :=
  fun n =>
    match n with
    | O => RawStatus429
    | _ => RawOk (mkRawJson (Value (mkRawResponse (Value [game_A; game_B])
                                                  Missing)))
    end.

Definition network_null_players : nat -> raw_http_result :=
  fun _ => RawOk (mkRawJson (Value (mkRawResponse Missing Null))).

(** Two player objects, and a server that sends both at once. *)
Definition player_P : player :=
  [ ("steamid", sample_steam_id); ("personaname", "P") ].
Definition player_Q : player := [ ("steamid", "76561197960287931") ].

Definition network_two_players : nat -> raw_http_result :=
  fun _ =>
    RawOk (mkRawJson (Value (mkRawResponse Missing
                                            (Value [player_P; player_Q])))).

(** C6: a body that lacks the nested ['response']['games'] member does
    end [get_owned_games] at the first request, but not always with the
    empty list.  On [{"response": {}}] and on [{}] the method prints its
    message and returns [[]]; on [{"response": null}] the test of line
    38 raises [TypeError], after the request and before any message,
    and the method returns nothing. *)
Theorem get_owned_games_raises_on_null_response
        (api_key steam_id : string) (t : list event) :
  let asked :=
    t ++ [ Printed "正在獲取遊戲列表... (嘗試 1/3)";
           Requested (base_url +++ "/IPlayerService/GetOwnedGames/v0001/")
             [("key", api_key); ("steamid", steam_id); ("format", "json");
              ("include_appinfo", "True");
              ("include_played_free_games", "True")] ] in
  get_owned_games_raw network_null_response api_key steam_id t
  = (Raised TypeError, asked)
  /\ get_owned_games_raw network_private_profile api_key steam_id t
     = (Returned (Some []),
        asked ++ [ Printed "無法獲取遊戲資料，請檢查API key和Steam ID是否正確" ])
  /\ get_owned_games_raw network_empty_object api_key steam_id t
     = (Returned (Some []),
        asked ++ [ Printed "無法獲取遊戲資料，請檢查API key和Steam ID是否正確" ]).
Proof.
  cbv zeta. unfold get_owned_games_raw.
  rewrite !(get_owned_games_raw_from_body _ api_key steam_id 0 [1; 2] t _ eq_refl).
  unfold owned_games_message, owned_games_in.
  cbn [raw_response_field raw_games_field].
  rewrite app_nil_r, <- !app_assoc. split; [|split]; reflexivity.
Qed.

(** [get_owned_games_first_body_decides] after one 429. *)
Lemma busy_once_then_games :
  fst (get_owned_games_raw network_busy_once sample_api_key sample_steam_id [])
  = Returned (Some [game_A; game_B])
  /\ requests_made
       (snd (get_owned_games_raw network_busy_once sample_api_key
               sample_steam_id []))
     = 2%nat.
Proof.
  apply (get_owned_games_first_body_decides
           network_busy_once sample_api_key sample_steam_id 1 []
           (mkRawJson (Value (mkRawResponse (Value [game_A; game_B]) Missing)))).
  - lia.
  - intros i Hi. assert (i = 0%nat) as -> by lia. reflexivity.
  - reflexivity.
Defined.

(** [get_player_summary_first_body_decides] on two players: the first
    one. *)
Lemma first_of_two_players :
  fst (get_player_summary_raw network_two_players sample_api_key
         sample_steam_id [])
  = Returned (Some player_P).
Proof.
  apply (get_player_summary_first_body_decides
           network_two_players sample_api_key sample_steam_id 0 []
           (mkRawJson (Value (mkRawResponse Missing
                                            (Value [player_P; player_Q]))))).
  - lia.
  - intros i Hi. lia.
  - reflexivity.
Defined.

(** On [{"response": {"players": null}}] the third conjunct of line 83
    takes [len(None)]: [get_player_summary] raises too. *)
Lemma get_player_summary_raises_on_null_players :
  fst (get_player_summary_raw network_null_players sample_api_key
         sample_steam_id [])
  = Raised TypeError.
Proof. reflexivity. Qed.
